(** * Unconfined-aquifer pumping test: the Theim solution and its driving script

    A shallow embedding of [PumpingTest_Analysis.ipynb], in two readings.

    The exact reading comes first ([Np], [Theim], [Arr], [Loader],
    [Script]).  It keeps the special values [inf], [-inf] and [nan] and the
    places where they are born ([log 0], [sqrt] of a negative number,
    division by zero), and takes arithmetic on finite values to be exact
    arithmetic on real numbers: rounding, overflow, underflow and the sign
    of zero are not modelled, the measured heads and times and the
    parameters [K], [Q], [b0] are real numbers, and the operand types are
    those the script gives them.  It carries the properties of the closed
    form itself and of the script's flow of data: what is loaded, indexed,
    passed and printed, and when a cell raises.

    The double-precision reading follows ([F64]).  It computes with
    IEEE-754 binary64 values and with Python's two kinds of floats, and
    carries the properties of [Theim] and of the drawdown transform whose
    truth depends on rounding, on overflow and underflow, on not-a-number
    in the data, or on the types of the operands. *)

From Stdlib Require Import String Reals Lra Lia List Factorial ZArith.
From Stdlib Require Floats.
Import ListNotations.

Open Scope R_scope.

(** ** Python results: a value or a raised exception *)

Module Py.

Inductive exn : Type :=
| ZeroDivisionError
| IndexError
| ValueError
| TypeError
| OverflowError
| OSError.

Inductive result (A : Type) : Type :=
| Ok (a : A)
| Raise (e : exn).

Arguments Ok {A} a.
Arguments Raise {A} e.

Definition bind {A B : Type} (m : result A) (k : A -> result B) : result B :=
  match m with
  | Ok a => k a
  | Raise e => Raise e
  end.

Definition raises {A : Type} (m : result A) : Prop :=
  exists e, m = Raise e.

End Py.

Import Py.

Notation "x <- m ;; k" := (Py.bind m (fun x => k))
  (at level 61, m at next level, right associativity).

(** ** numpy scalars *)

(** A double: a finite value, or one of the three special values. *)
Inductive float64 : Type :=
| Fin (x : R)
| PInf
| NInf
| NaN.

(** The operations, under the names numpy gives them. *)
Module Np.

(** Sign of a real number as a three-way choice. *)
Inductive sign : Type := Neg | Zero | Pos.

Definition sgn (x : R) : sign :=
  if Rlt_dec 0 x then Pos else if Rlt_dec x 0 then Neg else Zero.

Definition inf_of (s : sign) : float64 :=
  match s with Pos => PInf | Neg => NInf | Zero => NaN end.

Definition sign_mul (s1 s2 : sign) : sign :=
  match s1, s2 with
  | Zero, _ | _, Zero => Zero
  | Pos, Pos | Neg, Neg => Pos
  | Pos, Neg | Neg, Pos => Neg
  end.

(** [a + b] *)
Definition add (a b : float64) : float64 :=
  match a, b with
  | NaN, _ | _, NaN => NaN
  | Fin x, Fin y => Fin (x + y)
  | PInf, NInf | NInf, PInf => NaN
  | PInf, _ | _, PInf => PInf
  | NInf, _ | _, NInf => NInf
  end.

(** [a * b]: infinity times zero is [nan]. *)
Definition mul (a b : float64) : float64 :=
  match a, b with
  | NaN, _ | _, NaN => NaN
  | Fin x, Fin y => Fin (x * y)
  | Fin x, PInf | PInf, Fin x => inf_of (sgn x)
  | Fin x, NInf | NInf, Fin x => inf_of (sign_mul Neg (sgn x))
  | PInf, PInf | NInf, NInf => PInf
  | PInf, NInf | NInf, PInf => NInf
  end.

(** [a / b] as numpy divides: a zero divisor gives an infinity (or [nan] for
    [0/0]) and a warning, never an exception. *)
Definition div (a b : float64) : float64 :=
  match a, b with
  | NaN, _ | _, NaN => NaN
  | Fin x, Fin y =>
      if Req_dec_T y 0 then inf_of (sgn x) else Fin (x / y)
  | Fin _, PInf | Fin _, NInf => Fin 0
  | PInf, Fin y => if Rlt_dec y 0 then NInf else PInf
  | NInf, Fin y => if Rlt_dec y 0 then PInf else NInf
  | PInf, PInf | PInf, NInf | NInf, PInf | NInf, NInf => NaN
  end.

(** [a ** n] for a literal natural exponent. *)
Fixpoint pow (a : float64) (n : nat) : float64 :=
  match n with
  | O => Fin 1
  | S m => mul a (pow a m)
  end.

(** [np.log]: natural logarithm; [log 0 = -inf], [nan] below zero. *)
Definition log (a : float64) : float64 :=
  match a with
  | Fin x =>
      if Rlt_dec 0 x then Fin (ln x)
      else if Req_dec_T x 0 then NInf else NaN
  | PInf => PInf
  | NInf => NaN
  | NaN => NaN
  end.

(** [np.sqrt]: [nan] (and a warning, not an exception) below zero. *)
Definition sqrt (a : float64) : float64 :=
  match a with
  | Fin x => if Rle_dec 0 x then Fin (sqrt x) else NaN
  | PInf => PInf
  | NInf => NaN
  | NaN => NaN
  end.

(** [np.pi] *)
Definition pi : float64 := Fin PI.

End Np.

(** Division of two Python floats: a zero divisor raises. *)
Definition py_truediv (a b : float64) : Py.result float64 :=
  match b with
  | Fin y => if Req_dec_T y 0 then Raise ZeroDivisionError else Ok (Np.div a b)
  | _ => Ok (Np.div a b)
  end.

(** ** The Theim solution

<<
def Theim(r,r1,b1,Q,K):
    LHS=Q/np.pi/K*np.log(r/r1)
    b=np.sqrt(LHS+b1**2)
    return b
>>
    [Q], [K] and [np.pi] are Python floats, so [Q/np.pi/K] is Python
    division; [r], [r1] and [b1] are numpy values. *)

Definition Theim (r r1 b1 Q K : float64) : Py.result float64 :=
  q <- py_truediv Q Np.pi ;;
  c <- py_truediv q K ;;
  let LHS := Np.mul c (Np.log (Np.div r r1)) in
  let b := Np.sqrt (Np.add LHS (Np.pow b1 2)) in
  Ok b.

(** The same call with an array of radii: the scalar factor is computed
    once and numpy broadcasts the rest over [r]. *)
Definition Theim_array (r : list float64) (r1 b1 Q K : float64)
  : Py.result (list float64) :=
  q <- py_truediv Q Np.pi ;;
  c <- py_truediv q K ;;
  let LHS := map (fun ri => Np.mul c (Np.log (Np.div ri r1))) r in
  let b := map (fun l => Np.sqrt (Np.add l (Np.pow b1 2))) LHS in
  Ok b.

(** The closed form as the specification words it:
    thickness(r, r1, b1, Q, K) = sqrt( Q/(pi K) ln(r/r1) + b1^2 ),
    undefined (not-a-number) when the radicand is negative. *)
Definition thiem_radicand (r r1 b1 Q K : R) : R :=
  Q / (PI * K) * ln (r / r1) + b1 ^ 2.

Definition thickness (r r1 b1 Q K : R) : float64 :=
  if Rle_dec 0 (thiem_radicand r r1 b1 Q K)
  then Fin (sqrt (thiem_radicand r r1 b1 Q K))
  else NaN.

(** ** numpy arrays of measurements *)

Module Arr.

(** What [np.loadtxt] hands back for one column: a 1-d array, or a 0-d
    scalar when the table had a single row (numpy squeezes axes of
    length one). *)
Inductive ndarray : Type :=
| Arr0 (x : R)
| Arr1 (l : list R).

(** Python index normalisation on an axis of length [n]: [-1] is the last
    position; out of range raises [IndexError]. *)
Definition py_index (n : nat) (i : Z) : Py.result nat :=
  if ((0 <=? i) && (i <? Z.of_nat n))%Z%bool then Ok (Z.to_nat i)
  else if ((i <? 0) && (- Z.of_nat n <=? i))%Z%bool
       then Ok (Z.to_nat (Z.of_nat n + i))
       else Raise IndexError.

(** [l[i]] on a 1-d array. *)
Definition item (l : list R) (i : Z) : Py.result R :=
  k <- py_index (length l) i ;;
  match nth_error l k with
  | Some x => Ok x
  | None => Raise IndexError
  end.

(** [a[i]]: a 0-d scalar cannot be indexed. *)
Definition getitem (a : ndarray) (i : Z) : Py.result R :=
  match a with
  | Arr0 _ => Raise IndexError
  | Arr1 l => item l i
  end.

(** [a[[i0, i1, ...]]]: fancy indexing, one [IndexError] spoils all. *)
Fixpoint take (l : list R) (idx : list Z) : Py.result (list R) :=
  match idx with
  | [] => Ok []
  | i :: rest =>
      x <- item l i ;;
      xs <- take l rest ;;
      Ok (x :: xs)
  end.

Definition getitems (a : ndarray) (idx : list Z) : Py.result (list R) :=
  match a with
  | Arr0 _ => Raise IndexError
  | Arr1 l => take l idx
  end.

(** [a - x] with a scalar [x], elementwise. *)
Definition sub_scalar (a : ndarray) (x : R) : ndarray :=
  match a with
  | Arr0 y => Arr0 (y - x)
  | Arr1 l => Arr1 (map (fun y => y - x) l)
  end.

(** [l[i] = v], in place. *)
Fixpoint set_nth (l : list R) (k : nat) (v : R) : list R :=
  match l, k with
  | [], _ => []
  | _ :: tl, O => v :: tl
  | x :: tl, S k' => x :: set_nth tl k' v
  end.

Definition setitem (l : list R) (i : Z) (v : R) : Py.result (list R) :=
  k <- py_index (length l) i ;;
  Ok (set_nth l k v).

(** [np.linspace(start, stop, num)] with the end point included:
    [arange(num) * step + start], the last entry overwritten by [stop]. *)
Definition linspace (start stop : R) (num : nat) : list R :=
  let div := (num - 1)%nat in
  let delta := stop - start in
  let y := map INR (seq 0 num) in
  let y :=
    if (0 <? div)%nat
    then map (fun yi => yi * (delta / INR div) + start) y
    else map (fun yi => yi * delta + start) y in
  if (1 <? num)%nat then set_nth y (num - 1) stop else y.

(** numpy's default number of samples. *)
Definition linspace_default_num : nat := 50.

(** [np.array([a; b; ...])] as the script needs it: the 2-d array made of
    1-d rows of one length.  From anything else numpy makes no 2-d array of
    numbers (it refuses a ragged stack, or builds an array that the 2-d
    index of the fitting cell rejects); the run ends either way, and the
    model ends it here. *)
Definition row_of (a : ndarray) : Py.result (list R) :=
  match a with
  | Arr0 _ => Raise ValueError
  | Arr1 l => Ok l
  end.

Fixpoint rows_of (l : list ndarray) : Py.result (list (list R)) :=
  match l with
  | [] => Ok []
  | a :: rest =>
      r <- row_of a ;;
      rs <- rows_of rest ;;
      Ok (r :: rs)
  end.

Definition same_length (n : nat) (rs : list (list R)) : bool :=
  forallb (fun r => Nat.eqb (length r) n) rs.

Definition array2 (l : list ndarray) : Py.result (list (list R)) :=
  rs <- rows_of l ;;
  match rs with
  | [] => Ok []
  | r :: _ => if same_length (length r) rs then Ok rs else Raise ValueError
  end.

(** [m[i, j]] on a 2-d array. *)
Definition item2 (m : list (list R)) (i j : Z) : Py.result R :=
  k <- py_index (length m) i ;;
  match nth_error m k with
  | Some row => item row j
  | None => Raise IndexError
  end.

End Arr.

Import Arr.

(** ** Reading the drawdown files *)

Module Loader.

(** A text file as its lines, each line split at the delimiter. *)
Inductive field : Type :=
| Num (x : R)
| Text (s : string).

Definition line : Type := list field.
Definition file : Type := list line.
Definition filesystem : Type := string -> option file.

Definition to_float (f : field) : Py.result R :=
  match f with
  | Num x => Ok x
  | Text _ => Raise ValueError
  end.

Fixpoint parse_line (l : line) : Py.result (list R) :=
  match l with
  | [] => Ok []
  | f :: rest =>
      x <- to_float f ;;
      xs <- parse_line rest ;;
      Ok (x :: xs)
  end.

(** Every row must have the width [w] of the first one. *)
Fixpoint parse_lines (w : nat) (ls : list line) : Py.result (list (list R)) :=
  match ls with
  | [] => Ok []
  | l :: rest =>
      if Nat.eqb (length l) w
      then xs <- parse_line l ;;
           xss <- parse_lines w rest ;;
           Ok (xs :: xss)
      else Raise ValueError
  end.

Definition column (k : nat) (rows : list (list R)) : list R :=
  map (fun row => nth k row 0) rows.

Definition blank (l : line) : bool :=
  match l with [] => true | _ => false end.

(** [a, b = np.loadtxt(name, delimiter=',', skiprows=1, unpack=True)]:
    the first line is dropped and blank lines are passed over; the table is
    squeezed (axes of length one disappear), transposed, and unpacked into
    exactly two names.  So a table of one row and two columns, or of two
    rows and one column, gives two scalars; a table of two columns and at
    least two rows gives its two columns; a single number cannot be
    unpacked; any other shape has the wrong number of values for the two
    names. *)
Definition loadtxt (fs : filesystem) (name : string)
  : Py.result (ndarray * ndarray) :=
  match fs name with
  | None => Raise OSError
  | Some f =>
      let body := filter (fun l => negb (blank l)) (skipn 1 f) in
      match body with
      | [] => Raise ValueError
      | first :: _ =>
          rows <- parse_lines (length first) body ;;
          match rows with
          | [[a]] => Raise TypeError
          | [[a; b]] => Ok (Arr0 a, Arr0 b)
          | [[a]; [b]] => Ok (Arr0 a, Arr0 b)
          | _ =>
              if (Nat.eqb (length first) 2 && (2 <=? length rows)%nat)%bool
              then Ok (Arr1 (column 0 rows), Arr1 (column 1 rows))
              else Raise ValueError
          end
      end
  end.

End Loader.

Import Loader.

(** ** The script, cell by cell *)

Module Script.

(** The geometry cell binds [r], the radii of the monitoring points; the
    cells below take that array as given, together with the three numbers
    [K], [Q] and [b0] the user types in. *)

(** Names bound by the loading cell.
<<
t,h4d=np.loadtxt('Piez4_drawdown.csv',delimiter=',',skiprows=1,unpack=True)
t,h3d=np.loadtxt('Piez3_drawdown.csv',delimiter=',',skiprows=1,unpack=True)
t,h1d=np.loadtxt('Piez1_drawdown.csv',delimiter=',',skiprows=1,unpack=True)
t,wd=np.loadtxt('Well_drawdown.csv',delimiter=',',skiprows=1,unpack=True)
>> *)
Record loaded : Type := Loaded {
  t : ndarray;
  h4d : ndarray;
  h3d : ndarray;
  h1d : ndarray;
  wd : ndarray
}.

(** The name [t] is bound four times; each binding hides the one before. *)
Definition load_drawdown (fs : filesystem) : Py.result loaded :=
  p4 <- loadtxt fs "Piez4_drawdown.csv" ;;
  let t := fst p4 in let h4d := snd p4 in
  p3 <- loadtxt fs "Piez3_drawdown.csv" ;;
  let t := fst p3 in let h3d := snd p3 in
  p1 <- loadtxt fs "Piez1_drawdown.csv" ;;
  let t := fst p1 in let h1d := snd p1 in
  pw <- loadtxt fs "Well_drawdown.csv" ;;
  let t := fst pw in let wd := snd pw in
  Ok (Loaded t h4d h3d h1d wd).

(** [h = h - h[0]] *)
Definition drawdown (h : ndarray) : Py.result ndarray :=
  h0 <- getitem h 0 ;;
  Ok (sub_scalar h h0).

(** Names bound by the transform cell.
<<
h4d=h4d-h4d[0]
h3d=h3d-h3d[0]
h1d=h1d-h1d[0]
wd=wd-wd[0]
ddn=np.array([wd,h1d,h3d,h4d])
rad=r[[0,1,3,4]]
>> *)
Record transformed : Type := Transformed {
  d_t : ndarray;
  d_h4d : ndarray;
  d_h3d : ndarray;
  d_h1d : ndarray;
  d_wd : ndarray;
  ddn : list (list R);
  rad : list R
}.

Definition to_drawdown (r : ndarray) (g : loaded) : Py.result transformed :=
  h4d <- drawdown (h4d g) ;;
  h3d <- drawdown (h3d g) ;;
  h1d <- drawdown (h1d g) ;;
  wd <- drawdown (wd g) ;;
  ddn <- array2 [wd; h1d; h3d; h4d] ;;
  rad <- getitems r [0; 1; 3; 4]%Z ;;
  Ok (Transformed (t g) h4d h3d h1d wd ddn rad).

(** The radius sweep.
<<
ra=np.linspace(0,30)
ra[0]=0.005
>> *)
Definition radius_sweep : Py.result (list R) :=
  let ra := linspace 0 30 linspace_default_num in
  setitem ra 0 0.005.

(** Names bound by the fitting cell.
<<
r1=r[1]
b1=b0-ddn[1,-1]
ra=np.linspace(0,30)
ra[0]=0.005
b=Theim(ra,r1,b1,Q,K)
>> *)
Record fitted : Type := Fitted {
  r1 : R;
  b1 : R;
  ra : list R;
  b : list float64
}.

Definition fit (K Q b0 : R) (r : ndarray) (g : transformed) : Py.result fitted :=
  r1 <- getitem r 1 ;;
  d <- item2 (ddn g) 1 (-1) ;;
  let b1 := b0 - d in
  ra <- radius_sweep ;;
  b <- Theim_array (map Fin ra) (Fin r1) (Fin b1) (Fin Q) (Fin K) ;;
  Ok (Fitted r1 b1 ra b).

(** The numbers handed to the two [print] calls.
<<
print('... %.1e m/min'%(K/60))
print('... %.3f m/d'%(K*60*24))
>> *)
Definition printed_K (K : R) : R * R := (K / 60, K * 60 * 24).

(** Cells in the order the notebook runs them. *)
Definition run (fs : filesystem) (r : ndarray) (K Q b0 : R)
  : Py.result (fitted * (R * R)) :=
  g <- load_drawdown fs ;;
  d <- to_drawdown r g ;;
  f <- fit K Q b0 r d ;;
  Ok (f, printed_K K).

End Script.

Import Script.

(** ** What the specification asks of the transform *)

(** [d] is [h - h[0]] elementwise on a non-empty series [h], and its first
    value is zero. *)
Definition zero_referenced (h d : ndarray) : Prop :=
  exists (x : R) (l : list R),
    h = Arr1 (x :: l)
    /\ d = Arr1 (map (fun y => y - x) (x :: l))
    /\ getitem d 0 = Ok 0.

(** [y] is [v] when rounded to four decimal places. *)
Definition to_4_places (y v : R) : Prop := Rabs (y - v) <= 0.00005.

(** ** A concrete run: four files on four different time grids *)

Module Example.

Definition header : line := [Text "time"; Text "head"].

Definition table (rows : list (R * R)) : file :=
  header :: map (fun p => [Num (fst p); Num (snd p)]) rows.

Definition piez4 : file := table [(0, 10); (1, 9); (2, 8)].
Definition piez3 : file := table [(0, 20); (5, 19); (10, 18)].
Definition piez1 : file := table [(0, 30); (7, 28); (14, 27)].
Definition well : file := table [(0, 40); (30, 35); (60, 33)].

Definition files : filesystem :=
  fun name =>
    if String.eqb name "Piez4_drawdown.csv" then Some piez4
    else if String.eqb name "Piez3_drawdown.csv" then Some piez3
    else if String.eqb name "Piez1_drawdown.csv" then Some piez1
    else if String.eqb name "Well_drawdown.csv" then Some well
    else None.

(** Radii of the monitoring points, as the geometry cell leaves them. *)
Definition radii : ndarray := Arr1 [1 / 10; 5; 8; 10; 20].

Definition after_load : loaded :=
  Loaded (Arr1 [0; 30; 60])
         (Arr1 [10; 9; 8]) (Arr1 [20; 19; 18]) (Arr1 [30; 28; 27])
         (Arr1 [40; 35; 33]).

Definition after_transform : transformed :=
  Transformed (Arr1 [0; 30; 60])
    (Arr1 [10 - 10; 9 - 10; 8 - 10])
    (Arr1 [20 - 20; 19 - 20; 18 - 20])
    (Arr1 [30 - 30; 28 - 30; 27 - 30])
    (Arr1 [40 - 40; 35 - 40; 33 - 40])
    [[40 - 40; 35 - 40; 33 - 40];
     [30 - 30; 28 - 30; 27 - 30];
     [20 - 20; 19 - 20; 18 - 20];
     [10 - 10; 9 - 10; 8 - 10]]
    [1 / 10; 5; 10; 20].

End Example.

(** A two-column text file: any first line, then one row per pair. *)
Definition two_columns (first : line) (rows : list (R * R)) : file :=
  first :: map (fun p => [Num (fst p); Num (snd p)]) rows.

(** ** The same code in double precision

    The definitions above read the notebook's arithmetic as exact.  The
    module below reads it as the machine does.  Every number is an IEEE-754
    binary64 value (Rocq's primitive [float]); division, multiplication,
    addition, subtraction and square root round to nearest, overflow to an
    infinity and underflow to zero as the processor's do; the logarithm and
    the power are the C library's; and the operand types of Python decide
    which operations can raise. *)

Module F64.

Import PrimFloat.
Local Open Scope float_scope.

(** [np.pi], the double nearest to pi. *)
Definition pi : float := 0x1.921fb54442d18p+1.

(** The double nearest to ln 2. *)
Definition ln2 : float := 0x1.62e42fefa39efp-1.

(** The doubles nearest to 1e200, 0.01 and 0.001, which Python reads from
    these literals. *)
Definition d1e200 : float := 0x1.4e718d7d7625ap+664.

(** *** The C library

    [np.log(x)] and [x ** 2] (C's [pow(x, 2.0)], for a Python float and for
    a numpy scalar alike) are functions of the C library, which is not part
    of the repository and whose results may differ in the last digit from
    one library to the next.  The model takes them as parameters. *)
Record libm : Type := Libm {
  log : float -> float;
  pow2 : float -> float
}.

(** The magnitudes whose square is beyond every double. *)
Definition huge (x : float) : bool := 0x1p+520 <=? abs x.

(** [x * x] loses no digit: the square of the significand of [x] is the
    significand of the rounded product, up to the scaling by the
    exponents. *)
Definition exact_square (x : float) : bool :=
  if huge x then false
  else
    match FloatOps.Prim2SF x, FloatOps.Prim2SF (x * x) with
    | SpecFloat.S754_zero _, _ => true
    | SpecFloat.S754_finite _ m e, SpecFloat.S754_finite _ m2 e2 =>
        let e0 := Z.min (2 * e) e2 in
        (Zpos (m * m) * 2 ^ (2 * e - e0) =? Zpos m2 * 2 ^ (e2 - e0))%Z
    | _, _ => false
    end.

(** What the properties below ask of the library, where they ask
    anything: [log 1] is zero; [log 2] and [log 0.5] are plus and minus the
    double nearest to ln 2; a square that is a double is returned as it is;
    the square of a huge number is plus infinity; a square is never
    negative zero. *)
Record conforms (L : libm) : Prop := Conforms {
  log_one : log L 1 = 0;
  log_two : log L 2 = ln2;
  log_half : log L 0.5 = - ln2;
  pow2_exact : forall x, exact_square x = true -> pow2 L x = x * x;
  pow2_huge : forall x, huge x = true -> pow2 L x = infinity;
  pow2_sign : forall x,
    FloatOps.Prim2SF (pow2 L x) <> SpecFloat.S754_zero true
}.

(** One library, to run the examples with.  Its logarithm is the exponent
    times ln 2 plus the series of 2 atanh((m-1)/(m+1)) for the significand
    m in [1,2); its square is the rounded product. *)
Fixpoint atanh_terms (n : nat) (k s2 : float) : float :=
  match n with
  | O => 1 / k
  | S n' => 1 / k + s2 * atanh_terms n' (k + 2) s2
  end.

Definition float_of_Z (z : Z) : float :=
  match z with
  | Z0 => 0
  | Zpos _ => of_uint63 (Uint63Axioms.of_Z z)
  | Zneg p => - of_uint63 (Uint63Axioms.of_Z (Zpos p))
  end.

Definition ref_log (x : float) : float :=
  if is_nan x then nan
  else if x <? 0 then nan
  else if x =? 0 then neg_infinity
  else if x =? infinity then infinity
  else
    let (m, e) := FloatOps.Z.frexp x in
    let m := 2 * m in
    let e := (e - 1)%Z in
    let s := (m - 1) / (m + 1) in
    float_of_Z e * ln2 + 2 * s * atanh_terms 20 1 (s * s).

Definition ref_pow2 (x : float) : float :=
  if huge x then infinity else x * x.

Definition ref_libm : libm := Libm ref_log ref_pow2.

(** *** Python's numbers

    A number as Python sees it: a Python float, or a numpy float64 (a
    numpy scalar, or one entry of an array).  Both hold a double; they
    differ in what their operations do at the edges.  Python integers are
    not modelled: an integer argument below 2^26 in magnitude behaves in
    [Theim] as the Python float of its value. *)
Inductive num : Type :=
| PyFloat (x : float)
| NpFloat (x : float).

Definition val (a : num) : float :=
  match a with PyFloat x | NpFloat x => x end.

(** [a / b]: between two Python floats a zero divisor raises; as soon as
    one operand is a numpy value the division is numpy's, which returns an
    infinity or not-a-number and only warns. *)
Definition truediv (a b : num) : Py.result num :=
  match a, b with
  | PyFloat x, PyFloat y =>
      if y =? 0 then Raise ZeroDivisionError else Ok (PyFloat (x / y))
  | _, _ => Ok (NpFloat (val a / val b))
  end.

(** [a * b] and [a + b] never raise. *)
Definition mul (a b : num) : num :=
  match a, b with
  | PyFloat x, PyFloat y => PyFloat (x * y)
  | _, _ => NpFloat (val a * val b)
  end.

Definition add (a b : num) : num :=
  match a, b with
  | PyFloat x, PyFloat y => PyFloat (x + y)
  | _, _ => NpFloat (val a + val b)
  end.

(** [a ** 2]: a Python float raises [OverflowError] when the square of a
    finite number comes back infinite; numpy returns the infinity. *)
Definition power2 (L : libm) (a : num) : Py.result num :=
  match a with
  | PyFloat x =>
      if (is_finite x && is_infinity (pow2 L x))%bool
      then Raise OverflowError
      else Ok (PyFloat (pow2 L x))
  | NpFloat x => Ok (NpFloat (pow2 L x))
  end.

(** [np.log(a)] and [np.sqrt(a)] take either kind and return a numpy
    value; out of their domain they return not-a-number and only warn. *)
Definition np_log (L : libm) (a : num) : num := NpFloat (log L (val a)).
Definition np_sqrt (a : num) : num := NpFloat (sqrt (val a)).

(** The Theim solution.
<<
def Theim(r,r1,b1,Q,K):
    LHS=Q/np.pi/K*np.log(r/r1)
    b=np.sqrt(LHS+b1**2)
    return b
>> *)
Definition Theim (L : libm) (r r1 b1 Q K : num) : Py.result num :=
  q <- truediv Q (PyFloat pi) ;;
  c <- truediv q K ;;
  x <- truediv r r1 ;;
  let LHS := mul c (np_log L x) in
  s <- power2 L b1 ;;
  let b := np_sqrt (add LHS s) in
  Ok b.

(** The same call with an array of radii in [r]: every operation that
    touches the array is numpy's and works entry by entry. *)
Definition Theim_array (L : libm) (r : list float) (r1 b1 Q K : num)
  : Py.result (list float) :=
  q <- truediv Q (PyFloat pi) ;;
  c <- truediv q K ;;
  let x := map (fun ri => ri / val r1) r in
  let LHS := map (fun xi => val c * log L xi) x in
  s <- power2 L b1 ;;
  let b := map (fun l => sqrt (l + val s)) LHS in
  Ok b.

(** The number under the square root, as the code computes it. *)
Definition radicand (L : libm) (r r1 b1 Q K : float) : float :=
  Q / pi / K * log L (r / r1) + pow2 L b1.

(** The calls in which a Python-level operation raises. *)
Definition py_zero_divisor (a b : num) : bool :=
  match a, b with
  | PyFloat _, PyFloat y => y =? 0
  | _, _ => false
  end.

Definition py_square_overflows (L : libm) (a : num) : bool :=
  match a with
  | PyFloat x => (is_finite x && is_infinity (pow2 L x))%bool
  | NpFloat _ => false
  end.

(** The real number a double stands for, when it stands for one. *)
Definition to_R (x : float) : option R :=
  match FloatOps.Prim2SF x with
  | SpecFloat.S754_zero _ => Some 0%R
  | SpecFloat.S754_finite s m e =>
      Some (IZR (SpecFloat.cond_Zopp s (Zpos m)) * powerRZ 2 e)%R
  | _ => None
  end.

(** *** Arrays of doubles, the loader and the transform cell *)

(** A column as [np.loadtxt] returns it: a 1-d array, or a scalar when the
    table had a single row. *)
Inductive ndarray : Type :=
| Arr0 (x : float)
| Arr1 (l : list float).

(** [l[i]] *)
Definition item (l : list float) (i : Z) : Py.result float :=
  k <- py_index (length l) i ;;
  match nth_error l k with
  | Some x => Ok x
  | None => Raise IndexError
  end.

(** [a[i]]: a scalar cannot be indexed. *)
Definition getitem (a : ndarray) (i : Z) : Py.result float :=
  match a with
  | Arr0 _ => Raise IndexError
  | Arr1 l => item l i
  end.

(** [a[[i0, i1, ...]]] *)
Fixpoint take (l : list float) (idx : list Z) : Py.result (list float) :=
  match idx with
  | [] => Ok []
  | i :: rest =>
      x <- item l i ;;
      xs <- take l rest ;;
      Ok (x :: xs)
  end.

Definition getitems (a : ndarray) (idx : list Z) : Py.result (list float) :=
  match a with
  | Arr0 _ => Raise IndexError
  | Arr1 l => take l idx
  end.

(** [a - x] with a scalar [x], entry by entry. *)
Definition sub_scalar (a : ndarray) (x : float) : ndarray :=
  match a with
  | Arr0 y => Arr0 (y - x)
  | Arr1 l => Arr1 (map (fun y => y - x) l)
  end.

(** A text file as [np.loadtxt] sees its lines once comments are cut and
    the line is split at the delimiter.  A field is [Num x] when Python's
    [float] accepts its text, [x] being the double it returns: the words
    nan and inf are accepted, and so is a literal beyond the largest
    double, which reads as an infinity.  Any other text is [Text]. *)
Inductive field : Type :=
| Num (x : float)
| Text (s : string).

Definition line : Type := list field.
Definition file : Type := list line.
Definition filesystem : Type := string -> option file.

Definition to_float (f : field) : Py.result float :=
  match f with
  | Num x => Ok x
  | Text _ => Raise ValueError
  end.

Fixpoint parse_line (l : line) : Py.result (list float) :=
  match l with
  | [] => Ok []
  | f :: rest =>
      x <- to_float f ;;
      xs <- parse_line rest ;;
      Ok (x :: xs)
  end.

Fixpoint parse_lines (w : nat) (ls : list line)
  : Py.result (list (list float)) :=
  match ls with
  | [] => Ok []
  | l :: rest =>
      if Nat.eqb (length l) w
      then xs <- parse_line l ;;
           xss <- parse_lines w rest ;;
           Ok (xs :: xss)
      else Raise ValueError
  end.

Definition column (k : nat) (rows : list (list float)) : list float :=
  map (fun row => nth k row 0) rows.

Definition blank (l : line) : bool :=
  match l with [] => true | _ => false end.

(** [a, b = np.loadtxt(name, delimiter=',', skiprows=1, unpack=True)],
    with the shapes of the loader above. *)
Definition loadtxt (fs : filesystem) (name : string)
  : Py.result (ndarray * ndarray) :=
  match fs name with
  | None => Raise OSError
  | Some f =>
      let body := filter (fun l => negb (blank l)) (skipn 1 f) in
      match body with
      | [] => Raise ValueError
      | first :: _ =>
          rows <- parse_lines (length first) body ;;
          match rows with
          | [[a]] => Raise TypeError
          | [[a; b]] => Ok (Arr0 a, Arr0 b)
          | [[a]; [b]] => Ok (Arr0 a, Arr0 b)
          | _ =>
              if (Nat.eqb (length first) 2 && (2 <=? length rows)%nat)%bool
              then Ok (Arr1 (column 0 rows), Arr1 (column 1 rows))
              else Raise ValueError
          end
      end
  end.

(** The loading cell. *)
Record loaded : Type := Loaded {
  t : ndarray;
  h4d : ndarray;
  h3d : ndarray;
  h1d : ndarray;
  wd : ndarray
}.

Definition load_drawdown (fs : filesystem) : Py.result loaded :=
  p4 <- loadtxt fs "Piez4_drawdown.csv"%string ;;
  let t := fst p4 in let h4d := snd p4 in
  p3 <- loadtxt fs "Piez3_drawdown.csv"%string ;;
  let t := fst p3 in let h3d := snd p3 in
  p1 <- loadtxt fs "Piez1_drawdown.csv"%string ;;
  let t := fst p1 in let h1d := snd p1 in
  pw <- loadtxt fs "Well_drawdown.csv"%string ;;
  let t := fst pw in let wd := snd pw in
  Ok (Loaded t h4d h3d h1d wd).

(** [h = h - h[0]] *)
Definition drawdown (h : ndarray) : Py.result ndarray :=
  h0 <- getitem h 0 ;;
  Ok (sub_scalar h h0).

(** [np.array([a, b, c, d])].  Entries of one shape give a regular array.
    Entries of different shapes give an array of the four objects in numpy
    before release 1.24 (the notebook's kernel is Python 3.7.3, which those
    releases serve) and raise [ValueError] from 1.24 on.  The array is kept
    as the list of its rows. *)
Inductive release : Type := Before_1_24 | From_1_24.

Definition shape (a : ndarray) : option nat :=
  match a with
  | Arr0 _ => None
  | Arr1 l => Some (length l)
  end.

Definition same_shape (a b : ndarray) : bool :=
  match shape a, shape b with
  | None, None => true
  | Some n, Some m => Nat.eqb n m
  | _, _ => false
  end.

Definition np_array (v : release) (rows : list ndarray)
  : Py.result (list ndarray) :=
  match rows with
  | [] => Ok rows
  | a :: rest =>
      if forallb (same_shape a) rest then Ok rows
      else match v with
           | Before_1_24 => Ok rows
           | From_1_24 => Raise ValueError
           end
  end.

(** The transform cell.
<<
h4d=h4d-h4d[0]
h3d=h3d-h3d[0]
h1d=h1d-h1d[0]
wd=wd-wd[0]
ddn=np.array([wd,h1d,h3d,h4d])
rad=r[[0,1,3,4]]
>> *)
Record transformed : Type := Transformed {
  d_t : ndarray;
  d_h4d : ndarray;
  d_h3d : ndarray;
  d_h1d : ndarray;
  d_wd : ndarray;
  ddn : list ndarray;
  rad : list float
}.

Definition to_drawdown (v : release) (r : ndarray) (g : loaded)
  : Py.result transformed :=
  h4d <- drawdown (h4d g) ;;
  h3d <- drawdown (h3d g) ;;
  h1d <- drawdown (h1d g) ;;
  wd <- drawdown (wd g) ;;
  ddn <- np_array v [wd; h1d; h3d; h4d] ;;
  rad <- getitems r [0; 1; 3; 4]%Z ;;
  Ok (Transformed (t g) h4d h3d h1d wd ddn rad).

(** What the specification asks of the transform: [d] is [h - h[0]] entry
    by entry on a non-empty series [h], and [d[0] == 0]. *)
Definition zero_referenced (h d : ndarray) : Prop :=
  exists (x : float) (l : list float),
    h = Arr1 (x :: l)
    /\ d = Arr1 (map (fun y => y - x) (x :: l))
    /\ exists y, getitem d 0 = Ok y /\ (y =? 0) = true.

(** What the transform does: [d] is [h - h[0]] entry by entry on a
    non-empty series [h], and [d[0]] is plus zero when the first reading is
    finite and not-a-number when it is an infinity or not-a-number. *)
Definition first_referenced (h d : ndarray) : Prop :=
  exists (x : float) (l : list float),
    h = Arr1 (x :: l)
    /\ d = Arr1 (map (fun y => y - x) (x :: l))
    /\ getitem d 0 = Ok (if is_finite x then 0 else nan).

(** Files to run the loader on. *)
Module Example.

Definition header : line := [Text "time"; Text "head"].

Definition table (rows : list (float * float)) : file :=
  header :: map (fun p => [Num (fst p); Num (snd p)]) rows.

Definition files_with (piez4 : file) : filesystem :=
  fun name =>
    if String.eqb name "Piez4_drawdown.csv" then Some piez4
    else if String.eqb name "Piez3_drawdown.csv" then
      Some (table [(0, 20); (1, 19); (2, 18)])
    else if String.eqb name "Piez1_drawdown.csv" then
      Some (table [(0, 30); (1, 28); (2, 27)])
    else if String.eqb name "Well_drawdown.csv" then
      Some (table [(0, 40); (1, 35); (2, 33)])
    else None.

(** Four well-formed files. *)
Definition files : filesystem :=
  files_with (table [(0, 10); (1, 9); (2, 8)]).

(** The same, the first head of piezometer 4 reading [nan]. *)
Definition files_nan : filesystem :=
  files_with (table [(0, nan); (1, 9); (2, 8)]).

Definition radii : ndarray := Arr1 [0.125; 5; 8; 10; 20].

(** What the loading cell and the transform cell leave. *)
Definition after_load : loaded :=
  Loaded (Arr1 [0; 1; 2]) (Arr1 [10; 9; 8]) (Arr1 [20; 19; 18])
         (Arr1 [30; 28; 27]) (Arr1 [40; 35; 33]).

Definition after_load_nan : loaded :=
  Loaded (Arr1 [0; 1; 2]) (Arr1 [nan; 9; 8]) (Arr1 [20; 19; 18])
         (Arr1 [30; 28; 27]) (Arr1 [40; 35; 33]).

Definition after_transform : transformed :=
  Transformed (Arr1 [0; 1; 2])
              (Arr1 [0; -1; -2]) (Arr1 [0; -1; -2])
              (Arr1 [0; -2; -3]) (Arr1 [0; -5; -7])
              [Arr1 [0; -5; -7]; Arr1 [0; -2; -3];
               Arr1 [0; -1; -2]; Arr1 [0; -1; -2]]
              [0.125; 5; 10; 20].

End Example.

End F64.

(** * Properties *)

(** Inversion of a successful bind. *)
Tactic Notation "bind_inv" hyp(H) ident(v) ident(E) :=
  match type of H with
  | Py.bind ?m _ = Ok _ =>
      destruct m as [v |] eqn:E; cbn [Py.bind] in H; [| discriminate H]
  end.

(** ** Evaluation of the Theim solution on finite inputs *)

Lemma radicand_code_eq (r r1 b1 Q K : R) :
  K <> 0 ->
  Q / PI / K * ln (r / r1) + b1 * (b1 * 1) = thiem_radicand r r1 b1 Q K.
Proof.
  intros HK. unfold thiem_radicand.
  assert (HPI : PI <> 0) by (apply Rgt_not_eq, PI_RGT_0).
  field. split; assumption.
Qed.

Lemma py_truediv_fin (x y : R) :
  y <> 0 -> py_truediv (Fin x) (Fin y) = Ok (Fin (x / y)).
Proof.
  intros Hy. unfold py_truediv, Np.div.
  destruct (Req_dec_T y 0) as [E | _]; [contradiction | reflexivity].
Qed.

Lemma np_div_fin (x y : R) : y <> 0 -> Np.div (Fin x) (Fin y) = Fin (x / y).
Proof.
  intros Hy. unfold Np.div.
  destruct (Req_dec_T y 0) as [E | _]; [contradiction | reflexivity].
Qed.

Lemma np_log_pos (x : R) : 0 < x -> Np.log (Fin x) = Fin (ln x).
Proof.
  intros Hx. unfold Np.log.
  destruct (Rlt_dec 0 x) as [_ | N]; [reflexivity | contradiction].
Qed.

Lemma np_sqrt_nonneg (x : R) : 0 <= x -> Np.sqrt (Fin x) = Fin (sqrt x).
Proof.
  intros Hx. unfold Np.sqrt.
  destruct (Rle_dec 0 x) as [_ | N]; [reflexivity | contradiction].
Qed.

Lemma np_sqrt_neg (x : R) : x < 0 -> Np.sqrt (Fin x) = NaN.
Proof.
  intros Hx. unfold Np.sqrt.
  destruct (Rle_dec 0 x) as [P | _]; [lra | reflexivity].
Qed.

Lemma thickness_sqrt (r r1 b1 Q K : R) :
  thickness r r1 b1 Q K = Np.sqrt (Fin (thiem_radicand r r1 b1 Q K)).
Proof. reflexivity. Qed.

(** On positive radii and a non-zero [K] the call returns, and what it
    returns is numpy's square root of the radicand. *)
Lemma Theim_eval (r r1 b1 Q K : R) :
  0 < r -> 0 < r1 -> K <> 0 ->
  Theim (Fin r) (Fin r1) (Fin b1) (Fin Q) (Fin K)
  = Ok (Np.sqrt (Fin (thiem_radicand r r1 b1 Q K))).
Proof.
  intros Hr Hr1 HK.
  assert (HPI : PI <> 0) by (apply Rgt_not_eq, PI_RGT_0).
  unfold Theim, Np.pi.
  rewrite (py_truediv_fin Q PI HPI). cbn [Py.bind].
  rewrite (py_truediv_fin (Q / PI) K HK). cbn [Py.bind].
  rewrite np_div_fin by lra.
  rewrite np_log_pos by (apply Rdiv_lt_0_compat; assumption).
  cbn [Np.mul Np.pow Np.add].
  rewrite radicand_code_eq by assumption.
  reflexivity.
Qed.

Lemma Theim_array_eval (ra : list R) (r1 b1 Q K : R) :
  Forall (fun x => 0 < x) ra -> 0 < r1 -> K <> 0 ->
  Theim_array (map Fin ra) (Fin r1) (Fin b1) (Fin Q) (Fin K)
  = Ok (map (fun x => thickness x r1 b1 Q K) ra).
Proof.
  intros Hra Hr1 HK.
  assert (HPI : PI <> 0) by (apply Rgt_not_eq, PI_RGT_0).
  unfold Theim_array, Np.pi.
  rewrite (py_truediv_fin Q PI HPI). cbn [Py.bind].
  rewrite (py_truediv_fin (Q / PI) K HK). cbn [Py.bind].
  f_equal. rewrite !map_map.
  induction Hra as [| x l Hx _ IH]; [reflexivity |].
  cbn [map]. rewrite IH. f_equal.
  rewrite np_div_fin by lra.
  rewrite np_log_pos by (apply Rdiv_lt_0_compat; assumption).
  cbn [Np.mul Np.pow Np.add].
  rewrite radicand_code_eq by assumption.
  reflexivity.
Qed.

(** ** C2 *)

Lemma factor_pos (Q K : R) : 0 < Q -> 0 < K -> 0 < Q / (PI * K).
Proof.
  intros HQ HK. apply Rdiv_lt_0_compat; [assumption |].
  apply Rmult_lt_0_compat; [apply PI_RGT_0 | assumption].
Qed.

Lemma ln_ratio_neg (r r1 : R) : 0 < r < r1 -> ln (r / r1) < 0.
Proof.
  intros [Hr Hlt]. rewrite <- ln_1. apply ln_increasing.
  - apply Rdiv_lt_0_compat; lra.
  - apply Rmult_lt_reg_r with r1; [lra |].
    unfold Rdiv. rewrite Rmult_assoc, Rinv_l by lra. lra.
Qed.

Lemma radicand_negative (r r1 b1 Q K : R) :
  0 < r < r1 -> 0 < Q -> 0 < K ->
  Rabs (Q / (PI * K) * ln (r / r1)) > b1 ^ 2 ->
  thiem_radicand r r1 b1 Q K < 0.
Proof.
  intros Hr HQ HK Habs. unfold thiem_radicand.
  pose proof (factor_pos Q K HQ HK) as Hc.
  pose proof (ln_ratio_neg r r1 Hr) as Hl.
  assert (Hneg : Q / (PI * K) * ln (r / r1) < 0) by nra.
  rewrite Rabs_left in Habs by exact Hneg. lra.
Qed.

Lemma Theim_array_ok (ra : list float64) (r1 b1 Q K : R) :
  K <> 0 ->
  Theim_array ra (Fin r1) (Fin b1) (Fin Q) (Fin K)
  = Ok (map (fun ri =>
               Np.sqrt (Np.add (Np.mul (Fin (Q / PI / K))
                                       (Np.log (Np.div ri (Fin r1))))
                               (Np.pow (Fin b1) 2))) ra).
Proof.
  intros HK.
  assert (HPI : PI <> 0) by (apply Rgt_not_eq, PI_RGT_0).
  unfold Theim_array, Np.pi.
  rewrite (py_truediv_fin Q PI HPI). cbn [Py.bind].
  rewrite (py_truediv_fin (Q / PI) K HK). cbn [Py.bind].
  rewrite map_map. reflexivity.
Qed.

Lemma ln_monotone (x y : R) : 0 < x -> x <= y -> ln x <= ln y.
Proof.
  intros Hx [Hlt | Heq].
  - left. apply ln_increasing; assumption.
  - right. rewrite Heq. reflexivity.
Qed.

(** ** C3 *)

(** At the reference radius the logarithm vanishes and the square root
    undoes the square; [K] only has to be non-zero. *)
Lemma radicand_reference (r1 b1 Q K : R) :
  0 < r1 -> thiem_radicand r1 r1 b1 Q K = b1 ^ 2.
Proof.
  intros Hr1. unfold thiem_radicand.
  replace (r1 / r1) with 1 by (field; lra).
  rewrite ln_1. ring.
Qed.

Lemma Theim_reference (r1 b1 Q K : R) :
  0 < r1 -> 0 <= b1 -> K <> 0 ->
  Theim (Fin r1) (Fin r1) (Fin b1) (Fin Q) (Fin K) = Ok (Fin b1).
Proof.
  intros Hr1 Hb1 HK.
  rewrite Theim_eval by lra.
  rewrite radicand_reference by exact Hr1.
  rewrite np_sqrt_nonneg by (apply pow2_ge_0).
  rewrite sqrt_pow2 by exact Hb1.
  reflexivity.
Qed.

(** ** C4 *)

(** A finite result can only come from a positive reference radius and a
    radicand that is not negative. *)
Lemma Theim_defined_inv (r r1 b1 Q K y : R) :
  0 < r -> 0 < Q -> 0 < K ->
  Theim (Fin r) (Fin r1) (Fin b1) (Fin Q) (Fin K) = Ok (Fin y) ->
  0 < r1
  /\ 0 <= thiem_radicand r r1 b1 Q K
  /\ y = sqrt (thiem_radicand r r1 b1 Q K).
Proof.
  intros Hr HQ HK E.
  assert (HPI : 0 < PI) by apply PI_RGT_0.
  assert (Hc : 0 < Q / PI / K).
  { apply Rdiv_lt_0_compat; [apply Rdiv_lt_0_compat |]; assumption. }
  destruct (Rlt_dec 0 r1) as [Hr1 | Hr1].
  - rewrite Theim_eval in E by lra.
    split; [exact Hr1 |].
    unfold Np.sqrt in E.
    destruct (Rle_dec 0 (thiem_radicand r r1 b1 Q K)) as [Hrad | Hrad];
      [| discriminate E].
    split; [exact Hrad |]. congruence.
  - exfalso. revert E. unfold Theim, Np.pi.
    rewrite (py_truediv_fin Q PI) by lra. cbn [Py.bind].
    rewrite (py_truediv_fin (Q / PI) K) by lra. cbn [Py.bind].
    unfold Np.div. destruct (Req_dec_T r1 0) as [Z0 | NZ].
    + unfold Np.sgn. destruct (Rlt_dec 0 r) as [_ | N]; [| contradiction].
      cbn [Np.inf_of Np.log Np.mul].
      unfold Np.sgn. destruct (Rlt_dec 0 (Q / PI / K)) as [_ | N];
        [| contradiction].
      cbn. discriminate.
    + assert (Hneg : r / r1 < 0).
      { assert (Hr1n : r1 < 0) by lra.
        assert (Hinv : / r1 < 0) by (apply Rinv_lt_0_compat; exact Hr1n).
        unfold Rdiv. nra. }
      unfold Np.log.
      destruct (Rlt_dec 0 (r / r1)) as [P | _]; [lra |].
      destruct (Req_dec_T (r / r1) 0) as [Z0 | _]; [lra |].
      cbn. discriminate.
Qed.

Lemma radicand_monotone (ra rb r1 b1 Q K : R) :
  0 < Q -> 0 < K -> 0 < r1 -> 0 < ra -> ra <= rb ->
  thiem_radicand ra r1 b1 Q K <= thiem_radicand rb r1 b1 Q K.
Proof.
  intros HQ HK Hr1 Hra Hle. unfold thiem_radicand.
  pose proof (factor_pos Q K HQ HK) as Hc.
  assert (Hln : ln (ra / r1) <= ln (rb / r1)).
  { apply ln_monotone.
    - apply Rdiv_lt_0_compat; assumption.
    - unfold Rdiv. apply Rmult_le_compat_r; [| exact Hle].
      left. apply Rinv_0_lt_compat. exact Hr1. }
  nra.
Qed.

(** C4. For K > 0, Q > 0, any b1 and reference radius, and radii
    0 < ra < rb at which both results are defined (finite numbers),
    [Theim(rb, ...) >= Theim(ra, ...)]: the thickness does not decrease
    with the radius. *)
Theorem C4_Theim_monotone_in_radius (ra rb r1 b1 Q K ya yb : R) :
  0 < K -> 0 < Q -> 0 < ra -> ra < rb ->
  Theim (Fin ra) (Fin r1) (Fin b1) (Fin Q) (Fin K) = Ok (Fin ya) ->
  Theim (Fin rb) (Fin r1) (Fin b1) (Fin Q) (Fin K) = Ok (Fin yb) ->
  yb >= ya.
Proof.
  intros HK HQ Hra Hlt Ea Eb.
  destruct (Theim_defined_inv _ _ _ _ _ _ Hra HQ HK Ea) as (Hr1 & Hrada & ->).
  assert (Hrb : 0 < rb) by lra.
  destruct (Theim_defined_inv _ _ _ _ _ _ Hrb HQ HK Eb) as (_ & Hradb & ->).
  apply Rle_ge. apply sqrt_le_1_alt.
  apply radicand_monotone; lra.
Qed.

(** Where the result is defined at a radius it is defined at every larger
    one. *)
Lemma Theim_defined_upward (ra rb r1 b1 Q K ya : R) :
  0 < K -> 0 < Q -> 0 < ra -> ra < rb ->
  Theim (Fin ra) (Fin r1) (Fin b1) (Fin Q) (Fin K) = Ok (Fin ya) ->
  exists yb, Theim (Fin rb) (Fin r1) (Fin b1) (Fin Q) (Fin K) = Ok (Fin yb).
Proof.
  intros HK HQ Hra Hlt Ea.
  destruct (Theim_defined_inv _ _ _ _ _ _ Hra HQ HK Ea) as (Hr1 & Hrada & _).
  exists (sqrt (thiem_radicand rb r1 b1 Q K)).
  rewrite Theim_eval by lra. f_equal. apply np_sqrt_nonneg.
  apply Rle_trans with (thiem_radicand ra r1 b1 Q K); [exact Hrada |].
  apply radicand_monotone; lra.
Qed.

Lemma Theim_1_1 :
  Theim (Fin 1) (Fin 1) (Fin 1) (Fin 1) (Fin 1) = Ok (Fin 1).
Proof. apply Theim_reference; lra. Qed.

Lemma Theim_2_1 :
  Theim (Fin 2) (Fin 1) (Fin 1) (Fin 1) (Fin 1)
  = Ok (Fin (sqrt (thiem_radicand 2 1 1 1 1))).
Proof.
  rewrite Theim_eval by lra. f_equal. apply np_sqrt_nonneg.
  apply Rle_trans with (thiem_radicand 1 1 1 1 1).
  - unfold thiem_radicand. replace (1 / 1) with 1 by lra. rewrite ln_1. lra.
  - apply radicand_monotone; lra.
Qed.

Lemma C4_witness : sqrt (thiem_radicand 2 1 1 1 1) >= 1.
Proof.
  apply (C4_Theim_monotone_in_radius 1 2 1 1 1 1);
    [lra | lra | lra | lra | exact Theim_1_1 | exact Theim_2_1].
Defined.

(** ** C6 *)


Lemma first_is_zero (x : R) (l : list R) :
  getitem (Arr1 (map (fun y => y - x) (x :: l))) 0 = Ok 0.
Proof.
  cbn. f_equal. apply Rminus_diag.
Qed.

(** A transform that returns was applied to a non-empty 1-d series. *)
Lemma drawdown_inv (h d : ndarray) :
  drawdown h = Ok d -> zero_referenced h d.
Proof.
  unfold drawdown. destruct h as [x | [| x l]]; cbn; try discriminate.
  intros E. injection E as <-.
  exists x, l. split; [reflexivity |]. split; [reflexivity |].
  apply first_is_zero.
Qed.

Lemma example_transform :
  to_drawdown Example.radii Example.after_load = Ok Example.after_transform.
Proof. reflexivity. Qed.

(** A table with a single data row is squeezed to scalars by the loader,
    and the transform then fails on the index. *)
Lemma drawdown_scalar_raises (x : R) : drawdown (Arr0 x) = Raise IndexError.
Proof. reflexivity. Qed.

(** ** C9 *)

(** C9. The two printed numbers are [K] times 1/60 and [K] times 60*24,
    in this order, and nothing else is done to [K]. *)
Theorem C9_printed_conductivity (K : R) :
  printed_K K = (K * (1 / 60), K * (60 * 24)).
Proof.
  unfold printed_K. f_equal; lra.
Qed.

(** ** C10 *)

Lemma load_drawdown_ok (fs : filesystem) (t4 h4 t3 h3 t1 h1 tw hw : ndarray) :
  loadtxt fs "Piez4_drawdown.csv" = Ok (t4, h4) ->
  loadtxt fs "Piez3_drawdown.csv" = Ok (t3, h3) ->
  loadtxt fs "Piez1_drawdown.csv" = Ok (t1, h1) ->
  loadtxt fs "Well_drawdown.csv" = Ok (tw, hw) ->
  load_drawdown fs = Ok (Loaded tw h4 h3 h1 hw).
Proof.
  intros Ep4 Ep3 Ep1 Epw.
  unfold load_drawdown. rewrite Ep4, Ep3, Ep1, Epw. reflexivity.
Qed.

(** C10. After the loading cell the one time vector [t] is the time column
    of [Well_drawdown.csv], the file read last.  The time columns of the
    three piezometer files are read and dropped: whatever they are, and
    however they differ from one another, the cell returns and its result
    does not mention them, and two runs whose files differ only in those
    three time columns end alike. *)
Theorem C10_time_vector_is_last_loaded :
  (forall (fs : filesystem) (g : loaded),
     load_drawdown fs = Ok g ->
     loadtxt fs "Well_drawdown.csv" = Ok (t g, wd g))
  /\ (forall (fs : filesystem) (t4 h4 t3 h3 t1 h1 tw hw : ndarray),
        loadtxt fs "Piez4_drawdown.csv" = Ok (t4, h4) ->
        loadtxt fs "Piez3_drawdown.csv" = Ok (t3, h3) ->
        loadtxt fs "Piez1_drawdown.csv" = Ok (t1, h1) ->
        loadtxt fs "Well_drawdown.csv" = Ok (tw, hw) ->
        load_drawdown fs = Ok (Loaded tw h4 h3 h1 hw))
  /\ (forall (fs fs' : filesystem)
             (t4 t4' h4 t3 t3' h3 t1 t1' h1 tw hw : ndarray),
        loadtxt fs "Piez4_drawdown.csv" = Ok (t4, h4) ->
        loadtxt fs' "Piez4_drawdown.csv" = Ok (t4', h4) ->
        loadtxt fs "Piez3_drawdown.csv" = Ok (t3, h3) ->
        loadtxt fs' "Piez3_drawdown.csv" = Ok (t3', h3) ->
        loadtxt fs "Piez1_drawdown.csv" = Ok (t1, h1) ->
        loadtxt fs' "Piez1_drawdown.csv" = Ok (t1', h1) ->
        loadtxt fs "Well_drawdown.csv" = Ok (tw, hw) ->
        loadtxt fs' "Well_drawdown.csv" = Ok (tw, hw) ->
        forall (r : ndarray) (K Q b0 : R),
          run fs r K Q b0 = run fs' r K Q b0).
Proof.
  split; [| split].
  - intros fs g H. unfold load_drawdown in H.
    bind_inv H p4 Ep4. bind_inv H p3 Ep3. bind_inv H p1 Ep1. bind_inv H pw Epw.
    injection H as <-. cbn. destruct pw; reflexivity.
  - intros fs t4 h4 t3 h3 t1 h1 tw hw. apply load_drawdown_ok.
  - intros fs fs' t4 t4' h4 t3 t3' h3 t1 t1' h1 tw hw
           Ep4 Ep4' Ep3 Ep3' Ep1 Ep1' Epw Epw' r K Q b0.
    unfold run.
    rewrite (load_drawdown_ok fs _ _ _ _ _ _ _ _ Ep4 Ep3 Ep1 Epw).
    rewrite (load_drawdown_ok fs' _ _ _ _ _ _ _ _ Ep4' Ep3' Ep1' Epw').
    reflexivity.
Qed.

Lemma example_load : load_drawdown Example.files = Ok Example.after_load.
Proof. reflexivity. Qed.

(** In the example the four files disagree on their time grids; the run
    keeps the well's. *)
Lemma C10_witness :
  loadtxt Example.files "Well_drawdown.csv"
  = Ok (Arr1 [0; 30; 60], Arr1 [40; 35; 33]).
Proof.
  exact (proj1 C10_time_vector_is_last_loaded
           Example.files Example.after_load example_load).
Defined.

Lemma example_grids_disagree :
  exists t4 h4 t3 h3,
    loadtxt Example.files "Piez4_drawdown.csv" = Ok (t4, h4)
    /\ loadtxt Example.files "Piez3_drawdown.csv" = Ok (t3, h3)
    /\ t4 <> t3 /\ t4 <> t Example.after_load.
Proof.
  exists (Arr1 [0; 1; 2]), (Arr1 [10; 9; 8]),
         (Arr1 [0; 5; 10]), (Arr1 [20; 19; 18]).
  split; [reflexivity |]. split; [reflexivity |].
  split; intros E; injection E as Ea Eb; lra.
Qed.

(** ** C8 *)

Lemma linspace_0_30 :
  exists rest,
    linspace 0 30 linspace_default_num = 0 :: rest
    /\ length rest = 49%nat
    /\ Forall (fun x => 0 < x) rest.
Proof.
  eexists. split; [| split].
  - unfold linspace, linspace_default_num.
    cbn -[INR Rmult Rplus Rdiv Rminus].
    f_equal. cbn. lra.
  - reflexivity.
  - repeat (constructor; [cbn -[Rmult Rplus Rdiv Rminus Rinv]; lra |]).
    constructor.
Qed.

Lemma log_ratio_defined (x r1 : R) :
  0 < x -> 0 < r1 -> Np.log (Np.div (Fin x) (Fin r1)) = Fin (ln (x / r1)).
Proof.
  intros Hx Hr1. rewrite np_div_fin by lra.
  apply np_log_pos. apply Rdiv_lt_0_compat; assumption.
Qed.

(** C8. The 50-point sweep from 0 to 30 has its only zero in first place;
    the script overwrites that entry with 0.005, so [ra] holds 50 strictly
    positive radii; the fitting cell hands exactly this array to [Theim]
    and binds [b] to what that call returns; and for a positive reference
    radius the logarithm of each ratio is a finite number. *)
Theorem C8_radius_sweep_positive :
  exists rest : list R,
    linspace 0 30 linspace_default_num = 0 :: rest
    /\ length rest = 49%nat
    /\ Forall (fun x => 0 < x) rest
    /\ radius_sweep = Ok (0.005 :: rest)
    /\ Forall (fun x => 0 < x) (0.005 :: rest)
    /\ (forall (K Q b0 : R) (r : ndarray) (g : transformed) (f : fitted),
          fit K Q b0 r g = Ok f ->
          ra f = 0.005 :: rest
          /\ Theim_array (map Fin (0.005 :: rest))
                         (Fin (r1 f)) (Fin (b1 f)) (Fin Q) (Fin K)
             = Ok (b f))
    /\ (forall x r1 : R,
          In x (0.005 :: rest) -> 0 < r1 ->
          Np.log (Np.div (Fin x) (Fin r1)) = Fin (ln (x / r1))).
Proof.
  destruct linspace_0_30 as (rest & Hlin & Hlen & Hpos).
  assert (Hsweep : radius_sweep = Ok (0.005 :: rest)).
  { unfold radius_sweep. rewrite Hlin. unfold setitem. cbn [length].
    reflexivity. }
  assert (Hall : Forall (fun x => 0 < x) (0.005 :: rest)).
  { constructor; [lra | exact Hpos]. }
  exists rest.
  split; [exact Hlin |]. split; [exact Hlen |]. split; [exact Hpos |].
  split; [exact Hsweep |]. split; [exact Hall |]. split.
  - intros K Q b0 r g f H. unfold fit in H. rewrite Hsweep in H.
    bind_inv H r1' Er1. bind_inv H d Ed. cbn [Py.bind] in H.
    bind_inv H b' Eb. injection H as <-. cbn [ra r1 b1 b].
    split; [reflexivity | exact Eb].
  - intros x r1 Hin Hr1. apply log_ratio_defined; [| exact Hr1].
    rewrite Forall_forall in Hall. apply Hall. exact Hin.
Qed.

(** The fitting cell returns on the example, whatever non-zero [K] the
    user enters. *)
Lemma example_fit (K Q b0 : R) :
  K <> 0 ->
  exists f,
    fit K Q b0 Example.radii Example.after_transform = Ok f
    /\ r1 f = 5 /\ b1 f = b0 - (27 - 30).
Proof.
  intros HK. destruct linspace_0_30 as (rest & Hlin & _ & _).
  unfold fit.
  assert (Hsweep : radius_sweep = Ok (0.005 :: rest)).
  { unfold radius_sweep. rewrite Hlin. reflexivity. }
  change (getitem Example.radii 1) with (Ok 5 : Py.result R).
  change (item2 (ddn Example.after_transform) 1 (-1))
    with (Ok (27 - 30) : Py.result R).
  rewrite Hsweep. cbn [Py.bind].
  rewrite Theim_array_ok by exact HK. cbn [Py.bind].
  eexists. split; [reflexivity |]. split; reflexivity.
Qed.

Lemma C8_witness :
  exists (f : fitted) (rest : list R),
    fit 1 1 10 Example.radii Example.after_transform = Ok f
    /\ ra f = 0.005 :: rest
    /\ Theim_array (map Fin (0.005 :: rest))
                   (Fin (r1 f)) (Fin (b1 f)) (Fin 1) (Fin 1)
       = Ok (b f).
Proof.
  destruct (example_fit 1 1 10 ltac:(lra)) as (f & Hf & _).
  destruct C8_radius_sweep_positive
    as (rest & _ & _ & _ & _ & _ & Hfit & _).
  exists f, rest. split; [exact Hf |].
  exact (Hfit 1 1 10 Example.radii Example.after_transform f Hf).
Defined.

(** ** C7 *)

Lemma exp_series (x : R) :
  Un_cv (fun n => sum_f_R0 (fun i => / INR (fact i) * x ^ i) n) (exp x).
Proof.
  unfold exp. destruct (exist_exp x) as [l Hl]. exact Hl.
Qed.

(** For [x >= 0] every partial sum of the exponential series is below
    [exp x]. *)
Lemma exp_ge_partial_sum (x : R) (N : nat) :
  0 <= x -> sum_f_R0 (fun i => / INR (fact i) * x ^ i) N <= exp x.
Proof.
  intros Hx. apply sum_incr; [apply exp_series |].
  intros n. apply Rmult_le_pos.
  - left. apply Rinv_0_lt_compat. apply INR_fact_lt_0.
  - apply pow_le. exact Hx.
Qed.

(** For [0 <= x <= 1] the odd partial sums of the alternating series are
    below [exp (-x)]. *)
Lemma exp_opp_ge_alternating_sum (x : R) (N : nat) :
  0 <= x <= 1 ->
  sum_f_R0 (tg_alt (fun i => x ^ i / INR (fact i))) (S (2 * N)) <= exp (- x).
Proof.
  intros [H0 H1].
  apply (alternated_series_ineq (fun i => x ^ i / INR (fact i)) (exp (- x)) N).
  - intros n. unfold Rdiv.
    pose proof (INR_fact_lt_0 n) as Hf.
    pose proof (pow_le x n H0) as Hp.
    pose proof (pos_INR n) as Hn.
    rewrite fact_simpl, mult_INR, S_INR, Rinv_mult. cbn [pow].
    assert (Hi : 0 < / INR (fact n)) by (apply Rinv_0_lt_compat; exact Hf).
    assert (Hs : / (INR n + 1) <= 1).
    { rewrite <- Rinv_1 at 2. apply Rinv_le_contravar; lra. }
    assert (Hs0 : 0 < / (INR n + 1)) by (apply Rinv_0_lt_compat; lra).
    assert (Hq : 0 <= x ^ n * / INR (fact n)) by (apply Rmult_le_pos; lra).
    assert (Hxs : x * / (INR n + 1) <= 1) by nra.
    assert (Hxs0 : 0 <= x * / (INR n + 1)) by nra.
    replace (x * x ^ n * (/ (INR n + 1) * / INR (fact n)))
      with ((x * / (INR n + 1)) * (x ^ n * / INR (fact n))) by ring.
    nra.
  - apply cv_speed_pow_fact.
  - apply Un_cv_ext with (2 := exp_series (- x)).
    intros n. apply sum_eq. intros i _. unfold tg_alt.
    replace (- x) with (-1 * x) by ring.
    rewrite Rpow_mult_distr. unfold Rdiv. ring.
Qed.

Lemma ln_2_upper : ln 2 <= 0.6932.
Proof.
  assert (H : 2 <= exp 0.6932).
  { apply Rle_trans with (2 := exp_ge_partial_sum 0.6932 6 ltac:(lra)).
    cbn [sum_f_R0 fact pow Nat.mul Nat.add INR]. lra. }
  rewrite <- (ln_exp 0.6932). apply ln_monotone; lra.
Qed.

Lemma ln_2_lower : 0.693 <= ln 2.
Proof.
  assert (H : / 2 <= exp (- (0.693))).
  { apply Rle_trans with (2 := exp_opp_ge_alternating_sum 0.693 3 ltac:(lra)).
    unfold tg_alt. cbn [sum_f_R0 fact pow Nat.mul Nat.add INR]. lra. }
  assert (H2 : exp 0.693 <= 2).
  { pose proof (exp_pos 0.693) as Hp.
    pose proof (exp_pos (- (0.693))) as Hn.
    assert (E : exp 0.693 * exp (- (0.693)) = 1).
    { rewrite <- exp_plus. replace (0.693 + - (0.693)) with 0 by lra.
      apply exp_0. }
    nra. }
  rewrite <- (ln_exp 0.693) at 1.
  apply ln_monotone; [apply exp_pos | exact H2].
Qed.

(** Machin-like series for pi, five terms. *)
Lemma PI_bounds : 3.1415 <= PI <= 3.1416.
Proof.
  pose proof (PI_2_3_7_ineq 2) as [Hlo Hhi].
  unfold tg_alt, PI_2_3_7_tg, Ratan_seq in Hlo, Hhi.
  cbn [sum_f_R0 pow Nat.mul Nat.add INR] in Hlo, Hhi.
  split; lra.
Qed.

Lemma example_radicand_bounds :
  9.61535 ^ 2 <= 0.01 / (PI * 0.001) * ln 2 + 9.5 ^ 2 <= 9.61545 ^ 2.
Proof.
  pose proof PI_bounds as [Hp1 Hp2].
  pose proof ln_2_lower as Hl1. pose proof ln_2_upper as Hl2.
  assert (Hc : 0.01 / (PI * 0.001) = 10 / PI).
  { replace 0.01 with (1 / 100) by lra.
    replace 0.001 with (1 / 1000) by lra.
    field. lra. }
  rewrite Hc.
  assert (Hi : 0 < / PI) by (apply Rinv_0_lt_compat; lra).
  assert (Hm : PI * / PI = 1) by (apply Rinv_r; lra).
  assert (Hi1 : / PI <= / 3.1415) by (apply Rinv_le_contravar; lra).
  assert (Hi2 : / 3.1416 <= / PI) by (apply Rinv_le_contravar; lra).
  unfold Rdiv.
  assert (Hlo : 10 * / 3.1416 * 0.693 <= 10 * / PI * ln 2) by nra.
  assert (Hhi : 10 * / PI * ln 2 <= 10 * / 3.1415 * 0.6932) by nra.
  split; lra.
Qed.

Lemma example_value_bounds :
  9.61535 <= sqrt (0.01 / (PI * 0.001) * ln 2 + 9.5 ^ 2) <= 9.61545.
Proof.
  destruct example_radicand_bounds as [Hlo Hhi].
  split.
  - rewrite <- (sqrt_pow2 9.61535) by lra. apply sqrt_le_1_alt. exact Hlo.
  - rewrite <- (sqrt_pow2 9.61545) by lra. apply sqrt_le_1_alt. exact Hhi.
Qed.

Lemma Theim_example_10 :
  Theim (Fin 10) (Fin 5) (Fin 9.5) (Fin 0.01) (Fin 0.001)
  = Ok (Fin (sqrt (0.01 / (PI * 0.001) * ln 2 + 9.5 ^ 2))).
Proof.
  rewrite Theim_eval by lra. unfold thiem_radicand.
  replace (10 / 5) with 2 by lra.
  f_equal. apply np_sqrt_nonneg.
  destruct example_radicand_bounds as [Hlo _]. nra.
Qed.

(** C7, as stated, fails: with r1=5, b1=9.5, Q=0.01, K=0.001 the value at
    r=10 is not 9.6199 to four decimal places. *)
Lemma C7_counterexample :
  ~ (Theim (Fin 5) (Fin 5) (Fin 9.5) (Fin 0.01) (Fin 0.001) = Ok (Fin 9.5)
     /\ exists y : R,
          Theim (Fin 10) (Fin 5) (Fin 9.5) (Fin 0.01) (Fin 0.001) = Ok (Fin y)
          /\ y = sqrt (0.01 / (PI * 0.001) * ln 2 + 9.5 ^ 2)
          /\ to_4_places y 9.6199).
Proof.
  intros (_ & y & _ & -> & H4).
  destruct example_value_bounds as [_ Hhi].
  unfold to_4_places, Rabs in H4.
  destruct (Rcase_abs _) in H4; lra.
Qed.

(** C7, amended. With r1=5, b1=9.5, Q=0.01, K=0.001:
    [Theim(5, ...)] is 9.5, and [Theim(10, ...)] is
    sqrt(0.01/(pi*0.001)*ln 2 + 9.5^2), which is 9.6154 to four decimal
    places. *)
Theorem C7_worked_example :
  Theim (Fin 5) (Fin 5) (Fin 9.5) (Fin 0.01) (Fin 0.001) = Ok (Fin 9.5)
  /\ exists y : R,
       Theim (Fin 10) (Fin 5) (Fin 9.5) (Fin 0.01) (Fin 0.001) = Ok (Fin y)
       /\ y = sqrt (0.01 / (PI * 0.001) * ln 2 + 9.5 ^ 2)
       /\ to_4_places y 9.6154.
Proof.
  split.
  - apply Theim_reference; lra.
  - eexists. split; [apply Theim_example_10 |]. split; [reflexivity |].
    destruct example_value_bounds as [Hlo Hhi].
    unfold to_4_places. apply Rabs_le. lra.
Qed.

(** * Further properties of the code *)

(** ** The Theim solution *)





(** X5. A larger [K] flattens the cone (r1, Q > 0, 0 < K1 < K2, both
    results defined): inside the reference radius the thickness does not
    fall, outside it does not rise. *)
Theorem X5_Theim_larger_K_flattens (r r1 b1 Q K1 K2 y1 y2 : R) :
  0 < r -> 0 < Q -> 0 < K1 -> K1 < K2 ->
  Theim (Fin r) (Fin r1) (Fin b1) (Fin Q) (Fin K1) = Ok (Fin y1) ->
  Theim (Fin r) (Fin r1) (Fin b1) (Fin Q) (Fin K2) = Ok (Fin y2) ->
  (r <= r1 -> y1 <= y2) /\ (r1 <= r -> y2 <= y1).
Proof.
  intros Hr HQ HK1 HK E1 E2.
  assert (HK2 : 0 < K2) by lra.
  destruct (Theim_defined_inv _ _ _ _ _ _ Hr HQ HK1 E1) as (Hr1 & Hrad1 & ->).
  destruct (Theim_defined_inv _ _ _ _ _ _ Hr HQ HK2 E2) as (_ & Hrad2 & ->).
  pose proof PI_RGT_0 as HPI.
  assert (Hc : 0 < Q / (PI * K2) <= Q / (PI * K1)).
  { split; [apply factor_pos; assumption |].
    unfold Rdiv. apply Rmult_le_compat_l; [lra |].
    apply Rinv_le_contravar; nra. }
  split; intros Hle; apply sqrt_le_1_alt; unfold thiem_radicand.
  - assert (Hln : ln (r / r1) <= 0).
    { rewrite <- ln_1. apply ln_monotone; [apply Rdiv_lt_0_compat; lra |].
      apply Rmult_le_reg_r with r1; [lra |].
      unfold Rdiv. rewrite Rmult_assoc, Rinv_l by lra. lra. }
    nra.
  - assert (Hln : 0 <= ln (r / r1)).
    { rewrite <- ln_1. apply ln_monotone; [lra |].
      apply Rmult_le_reg_r with r1; [lra |].
      unfold Rdiv. rewrite Rmult_assoc, Rinv_l by lra. lra. }
    nra.
Qed.

Lemma Theim_2_1_K2 :
  Theim (Fin 2) (Fin 1) (Fin 1) (Fin 1) (Fin 2)
  = Ok (Fin (sqrt (thiem_radicand 2 1 1 1 2))).
Proof.
  rewrite Theim_eval by lra. f_equal. apply np_sqrt_nonneg.
  apply Rle_trans with (thiem_radicand 1 1 1 1 2).
  - rewrite radicand_reference by lra. lra.
  - apply radicand_monotone; lra.
Qed.

Lemma X5_witness :
  (2 <= 1 -> sqrt (thiem_radicand 2 1 1 1 1) <= sqrt (thiem_radicand 2 1 1 1 2))
  /\ (1 <= 2 ->
      sqrt (thiem_radicand 2 1 1 1 2) <= sqrt (thiem_radicand 2 1 1 1 1)).
Proof.
  apply (X5_Theim_larger_K_flattens 2 1 1 1 1 2);
    [lra | lra | lra | lra | exact Theim_2_1 | exact Theim_2_1_K2].
Defined.

(** X8. A call with an array of radii is the scalar call at each radius:
    when it returns, the result has one entry per radius, each the result
    of [Theim] there; when it raises, [Theim] raises the same at every
    radius. *)
Theorem X8_Theim_array_elementwise (rs : list float64) (r1 b1 Q K : float64) :
  (forall bs,
     Theim_array rs r1 b1 Q K = Ok bs ->
     Forall2 (fun r y => Theim r r1 b1 Q K = Ok y) rs bs)
  /\ (forall e,
        Theim_array rs r1 b1 Q K = Raise e ->
        forall r, Theim r r1 b1 Q K = Raise e).
Proof.
  unfold Theim_array, Theim.
  destruct (py_truediv Q Np.pi) as [q | e1]; cbn [Py.bind].
  - destruct (py_truediv q K) as [c | e2]; cbn [Py.bind].
    + split; [| discriminate].
      intros bs E. injection E as <-. rewrite map_map.
      induction rs as [| r rs IH]; cbn [map]; constructor;
        [reflexivity | exact IH].
    + split; [discriminate |]. intros e E r. injection E as <-. reflexivity.
  - split; [discriminate |]. intros e E r. injection E as <-. reflexivity.
Qed.

Lemma X8_witness :
  Forall2 (fun r y => Theim r (Fin 5) (Fin 9.5) (Fin 0.01) (Fin 0.001) = Ok y)
          (map Fin [1; 2])
          (map (fun x => thickness x 5 9.5 0.01 0.001) [1; 2]).
Proof.
  apply (proj1 (X8_Theim_array_elementwise
                  (map Fin [1; 2]) (Fin 5) (Fin 9.5) (Fin 0.01) (Fin 0.001))).
  apply Theim_array_eval; [| lra | lra].
  repeat constructor; lra.
Defined.


(** ** The radii of the monitoring points *)

Lemma raises_bind {A B : Type} (m : Py.result A) (k : A -> Py.result B) :
  Py.raises m -> Py.raises (Py.bind m k).
Proof. intros [e ->]. exists e. reflexivity. Qed.

Lemma raises_Raise {A : Type} (e : exn) : Py.raises (@Raise A e).
Proof. exists e. reflexivity. Qed.

Lemma to_drawdown_rad (r : ndarray) (g : loaded) (d : transformed) :
  to_drawdown r g = Ok d -> getitems r [0; 1; 3; 4]%Z = Ok (rad d).
Proof.
  intros H. unfold to_drawdown in H.
  bind_inv H a4 Ea4. bind_inv H a3 Ea3. bind_inv H a1 Ea1. bind_inv H aw Eaw.
  bind_inv H m Em. bind_inv H rd Er. injection H as <-. reflexivity.
Qed.

Lemma to_drawdown_radii_only (r r' : ndarray) (g : loaded) :
  getitems r [0; 1; 3; 4]%Z = getitems r' [0; 1; 3; 4]%Z ->
  to_drawdown r g = to_drawdown r' g.
Proof.
  intros H. unfold to_drawdown. rewrite H. reflexivity.
Qed.

Lemma getitems_second (r : ndarray) (xs : list R) :
  getitems r [0; 1; 3; 4]%Z = Ok xs -> getitem r 1 = Ok (nth 1 xs 0).
Proof.
  destruct r as [x | l]; [discriminate |].
  cbn [getitems getitem take]. intros H.
  bind_inv H x0 Ex0. bind_inv H ys Eys.
  bind_inv Eys x1 Ex1. bind_inv Eys zs Ezs.
  injection Eys as <-. injection H as <-. reflexivity.
Qed.

(** X12. The run uses the radii only through r[0], r[1], r[3] and r[4]:
    two radius arrays on which the selection r[[0,1,3,4]] gives the same
    outcome give the same run, whatever stands at position 2 or beyond
    position 4. *)
Theorem X12_run_uses_four_radii
  (fs : filesystem) (r r' : ndarray) (K Q b0 : R) :
  getitems r [0; 1; 3; 4]%Z = getitems r' [0; 1; 3; 4]%Z ->
  run fs r K Q b0 = run fs r' K Q b0.
Proof.
  intros H. unfold run.
  destruct (load_drawdown fs) as [g |]; cbn [Py.bind]; [| reflexivity].
  rewrite (to_drawdown_radii_only r r' g H).
  destruct (to_drawdown r' g) as [d |] eqn:Ed; cbn [Py.bind]; [| reflexivity].
  pose proof (to_drawdown_rad _ _ _ Ed) as Hr'.
  assert (Hr : getitems r [0; 1; 3; 4]%Z = Ok (rad d)) by (rewrite H; exact Hr').
  unfold fit.
  rewrite (getitems_second _ _ Hr), (getitems_second _ _ Hr'). reflexivity.
Qed.

Lemma X12_witness :
  run Example.files (Arr1 [1 / 10; 5; 8; 10; 20]) 1 1 10
  = run Example.files (Arr1 [1 / 10; 5; 99; 10; 20; 77]) 1 1 10.
Proof.
  apply (X12_run_uses_four_radii Example.files
           (Arr1 [1 / 10; 5; 8; 10; 20]) (Arr1 [1 / 10; 5; 99; 10; 20; 77])).
  reflexivity.
Defined.




(** ** The fitting cell *)

Lemma nth_error_last (l : list R) (x d : R) :
  nth_error (x :: l) (length l) = Some (last (x :: l) d).
Proof.
  revert x. induction l as [| y l IH]; intros x; [reflexivity |].
  cbn [length nth_error]. rewrite (IH y). reflexivity.
Qed.

(** [l[-1]] is the last entry of a non-empty array. *)
Lemma item_last (l : list R) (x : R) :
  item (x :: l) (-1) = Ok (last (x :: l) x).
Proof.
  unfold item, py_index.
  assert (H1 : ((0 <=? -1) && (-1 <? Z.of_nat (length (x :: l))))%Z%bool
               = false) by reflexivity.
  assert (H2 : ((-1 <? 0) && (- Z.of_nat (length (x :: l)) <=? -1))%Z%bool
               = true).
  { apply Bool.andb_true_iff. split; [reflexivity |].
    apply Z.leb_le. cbn [length]. lia. }
  rewrite H1, H2. cbn [Py.bind].
  replace (Z.to_nat (Z.of_nat (length (x :: l)) + -1)) with (length l)
    by (cbn [length]; lia).
  rewrite (nth_error_last l x x). reflexivity.
Qed.

Lemma last_map_cons (f : R -> R) (x d : R) (l : list R) :
  last (map f (x :: l)) (f d) = f (last (x :: l) d).
Proof.
  revert x. induction l as [| y l IH]; intros x; [reflexivity |].
  specialize (IH y). cbn [map last] in *. exact IH.
Qed.


Lemma to_drawdown_h1d (r : ndarray) (g : loaded) (d : transformed) :
  to_drawdown r g = Ok d ->
  exists (x : R) (l : list R),
    h1d g = Arr1 (x :: l)
    /\ nth_error (ddn d) 1 = Some (map (fun y => y - x) (x :: l))
    /\ length (ddn d) = 4%nat.
Proof.
  intros H. unfold to_drawdown in H.
  bind_inv H a4 Ea4. bind_inv H a3 Ea3. bind_inv H a1 Ea1. bind_inv H aw Eaw.
  bind_inv H m Em. bind_inv H rd Er. injection H as <-. cbn.
  destruct (drawdown_inv _ _ Ea4) as (x4 & l4 & _ & -> & _).
  destruct (drawdown_inv _ _ Ea3) as (x3 & l3 & _ & -> & _).
  destruct (drawdown_inv _ _ Ea1) as (x1 & l1 & Hh & -> & _).
  destruct (drawdown_inv _ _ Eaw) as (xw & lw & _ & -> & _).
  unfold array2 in Em. cbn [rows_of row_of Py.bind] in Em.
  match type of Em with
  | (if ?c then _ else _) = _ => destruct c; [| discriminate Em]
  end.
  injection Em as <-.
  exists x1, l1. repeat split. exact Hh.
Qed.

(** X14. The reference point of the fit is piezometer 1: when the transform
    and the fitting cell return, r1 is r[1] and b1 is b0 minus the total
    drawdown of piezometer 1 (its last head minus its first). *)
Theorem X14_fit_reference_point
  (K Q b0 : R) (r : ndarray) (g : loaded) (d : transformed) (f : fitted) :
  to_drawdown r g = Ok d ->
  fit K Q b0 r d = Ok f ->
  exists (x : R) (l : list R),
    h1d g = Arr1 (x :: l)
    /\ getitem r 1 = Ok (r1 f)
    /\ b1 f = b0 - (last (x :: l) x - x).
Proof.
  intros Ht Hf.
  destruct (to_drawdown_h1d _ _ _ Ht) as (x & l & Hh & Hrow & Hlen).
  exists x, l. split; [exact Hh |].
  unfold fit in Hf.
  bind_inv Hf r1' Er1. bind_inv Hf dd Edd. bind_inv Hf ra' Era.
  bind_inv Hf b' Eb. injection Hf as <-. cbn [r1 b1].
  split; [reflexivity |].
  assert (Hdd : dd = last (x :: l) x - x).
  { unfold item2 in Edd. rewrite Hlen in Edd.
    change (py_index 4 1) with (Ok 1%nat : Py.result nat) in Edd.
    cbn [Py.bind] in Edd. rewrite Hrow in Edd.
    cbn [map] in Edd. rewrite item_last in Edd.
    injection Edd as <-.
    exact (last_map_cons (fun y => y - x) x x l). }
  rewrite Hdd. reflexivity.
Qed.

Lemma X14_witness :
  exists f,
    fit 1 1 10 Example.radii Example.after_transform = Ok f
    /\ exists (x : R) (l : list R),
         h1d Example.after_load = Arr1 (x :: l)
         /\ getitem Example.radii 1 = Ok (r1 f)
         /\ b1 f = 10 - (last (x :: l) x - x).
Proof.
  destruct (example_fit 1 1 10 ltac:(lra)) as (f & Hf & _).
  exists f. split; [exact Hf |].
  exact (X14_fit_reference_point 1 1 10 Example.radii Example.after_load
           Example.after_transform f example_transform Hf).
Defined.

(** ** When the run completes *)








(** ** Reading the files *)

Lemma rows_not_blank (rows : list (R * R)) :
  filter (fun l => negb (blank l))
         (map (fun p => [Num (fst p); Num (snd p)]) rows)
  = map (fun p => [Num (fst p); Num (snd p)]) rows.
Proof.
  induction rows as [| p rows IH]; [reflexivity |].
  cbn [map filter blank negb]. rewrite IH. reflexivity.
Qed.

Lemma parse_two_columns (rows : list (R * R)) :
  parse_lines 2 (map (fun p => [Num (fst p); Num (snd p)]) rows)
  = Ok (map (fun p => [fst p; snd p]) rows).
Proof.
  induction rows as [| p rows IH]; [reflexivity |].
  cbn [map parse_lines length Nat.eqb parse_line to_float Py.bind].
  rewrite IH. reflexivity.
Qed.

(** X16. What the loader makes of a two-column file, whatever its first
    line is: with two or more rows below it, the two columns, row for row;
    with exactly one row, two scalars instead of arrays; with no row,
    [ValueError]. *)
Theorem X16_loadtxt_two_columns
  (fs : filesystem) (name : string) (first : line) (rows : list (R * R)) :
  fs name = Some (two_columns first rows) ->
  match rows with
  | [] => loadtxt fs name = Raise ValueError
  | [p] => loadtxt fs name = Ok (Arr0 (fst p), Arr0 (snd p))
  | _ :: _ :: _ =>
      loadtxt fs name = Ok (Arr1 (map fst rows), Arr1 (map snd rows))
  end.
Proof.
  intros Hf. unfold loadtxt. rewrite Hf. unfold two_columns.
  cbn [skipn]. rewrite rows_not_blank.
  destruct rows as [| p [| q rows]]; [reflexivity | reflexivity |].
  cbn [map length Nat.eqb parse_lines parse_line to_float Py.bind].
  rewrite parse_two_columns. cbn [Py.bind length Nat.leb andb].
  unfold column. cbn [map nth]. rewrite !map_map. reflexivity.
Qed.

Lemma X16_witness :
  loadtxt Example.files "Well_drawdown.csv"
  = Ok (Arr1 (map fst [(0, 40); (30, 35); (60, 33)]),
        Arr1 (map snd [(0, 40); (30, 35); (60, 33)])).
Proof.
  exact (X16_loadtxt_two_columns Example.files "Well_drawdown.csv"
           Example.header [(0, 40); (30, 35); (60, 33)] eq_refl).
Defined.

(** * Properties of the double-precision reading *)

Module F64Facts.

Import PrimFloat F64.
Local Open Scope float_scope.

(** ** Facts of binary64 arithmetic *)

(** [is_finite] on the four kinds of doubles. *)
Lemma is_finite_spec (x : float) :
  is_finite x
  = match FloatOps.Prim2SF x with
    | SpecFloat.S754_zero _ | SpecFloat.S754_finite _ _ _ => true
    | _ => false
    end.
Proof.
  unfold is_finite, is_nan, is_infinity.
  rewrite !FloatAxioms.eqb_spec, FloatAxioms.abs_spec.
  destruct (FloatOps.Prim2SF x) as [s | s | | s m e];
    try (destruct s; reflexivity).
  - reflexivity.
  - unfold SpecFloat.SFeqb, SpecFloat.SFcompare.
    rewrite Z.compare_refl.
    change (PosDef.Pos.compare_cont Eq m m) with (Pos.compare m m).
    rewrite Pos.compare_refl. destruct s; reflexivity.
Qed.





(** [x - x] is zero for a finite [x], not-a-number otherwise. *)
Lemma sub_self (x : float) :
  x - x = if is_finite x then 0 else nan.
Proof.
  apply FloatAxioms.Prim2SF_inj.
  rewrite is_finite_spec, FloatAxioms.sub_spec.
  destruct (FloatOps.Prim2SF x) as [s | s | | s m e];
    try (destruct s; reflexivity); try reflexivity.
  unfold FloatAxioms.SF64sub, SpecFloat.SFsub.
  rewrite Z.min_id. unfold SpecFloat.shl_align. rewrite Z.sub_diag.
  cbn [fst].
  replace (SpecFloat.cond_Zopp s (Z.pos m)
           + SpecFloat.cond_Zopp (negb s) (Z.pos m))%Z with 0%Z
    by (destruct s; cbn [SpecFloat.cond_Zopp negb]; lia).
  reflexivity.
Qed.

(** [x - 0] is [x]. *)
Lemma sub_zero (x : float) : x - 0 = x.
Proof.
  apply FloatAxioms.Prim2SF_inj. rewrite FloatAxioms.sub_spec.
  change (FloatOps.Prim2SF 0) with (SpecFloat.S754_zero false).
  destruct (FloatOps.Prim2SF x) as [s | s | | s m e];
    try (destruct s; reflexivity); reflexivity.
Qed.

(** The square root of a negative number is not-a-number. *)
Lemma sqrt_neg (x : float) : (x <? 0) = true -> sqrt x = nan.
Proof.
  intros H. apply FloatAxioms.Prim2SF_inj.
  rewrite FloatAxioms.ltb_spec in H. rewrite FloatAxioms.sqrt_spec.
  change (FloatOps.Prim2SF 0) with (SpecFloat.S754_zero false) in H.
  destruct (FloatOps.Prim2SF x) as [s | s | | s m e];
    try (destruct s; try discriminate H; reflexivity).
  discriminate H.
Qed.



(** Rounding keeps the sign it is given. *)
Lemma round_sign (m : Z) (e : Z) (l : SpecFloat.location) :
  SpecFloat.binary_round_aux FloatOps.prec FloatOps.emax false m e l
  <> SpecFloat.S754_zero true.
Proof.
  unfold SpecFloat.binary_round_aux.
  destruct (SpecFloat.shr_fexp _ _ m e l) as [mrs e'].
  destruct (SpecFloat.shr_fexp _ _ _ e' SpecFloat.loc_Exact) as [mrs' e''].
  destruct (SpecFloat.shr_m mrs'); try discriminate.
  destruct (e'' <=? FloatOps.emax - FloatOps.prec)%Z; discriminate.
Qed.

(** A product of a double by itself is never negative zero. *)
Lemma square_sign (x : float) :
  FloatOps.Prim2SF (x * x) <> SpecFloat.S754_zero true.
Proof.
  rewrite FloatAxioms.mul_spec.
  destruct (FloatOps.Prim2SF x) as [s | s | | s m e];
    try (destruct s; discriminate); try discriminate.
  unfold FloatAxioms.SF64mul, SpecFloat.SFmul.
  replace (xorb s s) with false by (destruct s; reflexivity).
  apply round_sign.
Qed.

(** The library of the examples conforms. *)
Lemma ref_libm_conforms : conforms ref_libm.
Proof.
  split; try reflexivity.
  - intros x H. unfold exact_square in H. cbn [pow2 ref_libm].
    unfold ref_pow2. destruct (huge x); [discriminate H | reflexivity].
  - intros x H. cbn [pow2 ref_libm]. unfold ref_pow2. now rewrite H.
  - intros x. cbn [pow2 ref_libm]. unfold ref_pow2.
    destruct (huge x); [discriminate | apply square_sign].
Qed.

(** The real number behind a positive double is positive. *)
Lemma to_R_positive (x : float) (a : R) :
  (0 <? x) = true -> to_R x = Some a -> (0 < a)%R.
Proof.
  intros H E. rewrite FloatAxioms.ltb_spec in H. unfold to_R in E.
  change (FloatOps.Prim2SF 0) with (SpecFloat.S754_zero false) in H.
  destruct (FloatOps.Prim2SF x) as [s | s | | s m e];
    try discriminate E; try (destruct s; discriminate H).
  destruct s; [discriminate H |].
  injection E as <-. cbn [SpecFloat.cond_Zopp].
  apply Rmult_lt_0_compat; [apply IZR_lt; lia | apply powerRZ_lt; lra].
Qed.

(** ** The Theim solution *)

Lemma pi_nonzero : (pi =? 0) = false.
Proof. reflexivity. Qed.

(** Every call of [Theim]: the first Python-level operation that fails
    raises, in the order of evaluation; otherwise the call returns the
    numpy square root of the radicand. *)
Lemma Theim_cases (L : libm) (r r1 b1 Q K : num) :
  Theim L r r1 b1 Q K
  = if py_zero_divisor Q K then Raise ZeroDivisionError
    else if py_zero_divisor r r1 then Raise ZeroDivisionError
    else if py_square_overflows L b1 then Raise OverflowError
    else Ok (NpFloat (sqrt (radicand L (val r) (val r1) (val b1)
                                     (val Q) (val K)))).
Proof.
  unfold Theim, radicand.
  destruct Q as [Q | Q], K as [K | K];
    cbn [truediv val py_zero_divisor Py.bind]; rewrite ?pi_nonzero;
    cbn [truediv val py_zero_divisor Py.bind];
    try (destruct (K =? 0); [reflexivity |]);
    cbn [truediv val py_zero_divisor Py.bind];
    (destruct r as [r | r], r1 as [r1 | r1];
     cbn [truediv val py_zero_divisor Py.bind];
     try (destruct (r1 =? 0); [reflexivity |]);
     cbn [truediv val py_zero_divisor Py.bind mul np_log];
     destruct b1 as [b1 | b1];
     cbn [power2 py_square_overflows val];
     try (destruct (is_finite b1 && is_infinity (pow2 L b1))%bool;
          [reflexivity |]);
     reflexivity).
Qed.

(** The same for an array of radii: the division by [r1] is numpy's. *)
Lemma Theim_array_cases (L : libm) (r : list float) (r1 b1 Q K : num) :
  Theim_array L r r1 b1 Q K
  = if py_zero_divisor Q K then Raise ZeroDivisionError
    else if py_square_overflows L b1 then Raise OverflowError
    else Ok (map (fun ri => sqrt (radicand L ri (val r1) (val b1)
                                           (val Q) (val K))) r).
Proof.
  unfold Theim_array, radicand.
  destruct Q as [Q | Q], K as [K | K];
    cbn [truediv val py_zero_divisor Py.bind]; rewrite ?pi_nonzero;
    cbn [truediv val py_zero_divisor Py.bind];
    try (destruct (K =? 0); [reflexivity |]);
    cbn [truediv val py_zero_divisor Py.bind];
    (destruct b1 as [b1 | b1];
     cbn [power2 py_square_overflows val];
     try (destruct (is_finite b1 && is_infinity (pow2 L b1))%bool;
          [reflexivity |]);
     cbn [Py.bind val]; rewrite !map_map; reflexivity).
Qed.

(** A positive double is not zero. *)
Lemma positive_nonzero (x : float) : (0 <? x) = true -> (x =? 0) = false.
Proof.
  rewrite FloatAxioms.ltb_spec, FloatAxioms.eqb_spec.
  change (FloatOps.Prim2SF 0) with (SpecFloat.S754_zero false).
  destruct (FloatOps.Prim2SF x) as [s | s | | s m e]; intros H;
    try discriminate H; try (destruct s; (discriminate H || reflexivity)).
Qed.

(** Two doubles that are equal have the same outcome of every test. *)
Lemma eqb_of_eq (x y : float) : x = y -> (x =? y) = (y =? y).
Proof. intros ->. reflexivity. Qed.

(** *** Four runs at the edges of the doubles, for every conforming library *)


(** With Python floats the same call raises. *)
Lemma Theim_overflow_python (L : libm) :
  conforms L ->
  Theim L (PyFloat 5) (PyFloat 5) (PyFloat d1e200) (PyFloat 1) (PyFloat 1)
  = Raise OverflowError.
Proof.
  intros HL. rewrite Theim_cases. cbn [py_zero_divisor py_square_overflows val].
  rewrite (pow2_huge L HL) by reflexivity. reflexivity.
Qed.

(** Q/pi/K underflows to zero and takes the logarithm with it. *)
Lemma Theim_underflow (L : libm) :
  conforms L ->
  Theim L (NpFloat 1) (NpFloat 2) (NpFloat 0)
          (NpFloat 0x1p-1000) (NpFloat 0x1p+1000)
  = Ok (NpFloat 0).
Proof.
  intros HL. rewrite Theim_cases. cbn [py_zero_divisor py_square_overflows val].
  unfold radicand. rewrite (pow2_exact L HL) by reflexivity.
  replace (1 / 2) with 0.5 by reflexivity. rewrite (log_half L HL).
  reflexivity.
Qed.



(** *** The claims on [Theim] *)




(** C2, as stated, fails in double precision.  The claim: with 0 < r < r1 and
    |Q/(pi K) ln(r/r1)| > b1^2 the call returns not-a-number.  At r = 1,
    r1 = 2, b1 = 0, Q = 2^-1000, K = 2^1000 the hypothesis holds of the
    real numbers, the double Q/pi/K underflows to zero, and the call
    returns 0.0. *)
Lemma C2_counterexample :
  ~ (forall (L : libm) (r r1 b1 Q K : num) (x x1 y1 q k : R),
        conforms L ->
        to_R (val r) = Some x -> to_R (val r1) = Some x1 ->
        to_R (val b1) = Some y1 ->
        to_R (val Q) = Some q -> to_R (val K) = Some k ->
        (0 < x < x1)%R -> (0 < q)%R -> (0 < k)%R ->
        (Rabs (q / (PI * k) * ln (x / x1)) > y1 ^ 2)%R ->
        exists v : num,
          Theim L r r1 b1 Q K = Ok v /\ is_nan (val v) = true).
Proof.
  intros H.
  assert (Hp : (0 < powerRZ 2 (-52))%R) by (apply powerRZ_lt; lra).
  assert (H1 : (0 < IZR 4503599627370496 * powerRZ 2 (-52)
                < IZR 4503599627370496 * powerRZ 2 (-51))%R).
  { change (-51)%Z with (1 + -52)%Z. rewrite powerRZ_add by lra.
    change (powerRZ 2 1) with (2 * 1)%R.
    assert (0 < IZR 4503599627370496)%R by (apply IZR_lt; lia).
    nra. }
  assert (HQ : (0 < IZR 4503599627370496 * powerRZ 2 (-1052))%R)
    by exact (to_R_positive 0x1p-1000 _ eq_refl eq_refl).
  assert (HK : (0 < IZR 4503599627370496 * powerRZ 2 948)%R)
    by exact (to_R_positive 0x1p+1000 _ eq_refl eq_refl).
  destruct (H ref_libm (NpFloat 1) (NpFloat 2) (NpFloat 0)
              (NpFloat 0x1p-1000) (NpFloat 0x1p+1000) _ _ _ _ _
              ref_libm_conforms eq_refl eq_refl eq_refl eq_refl eq_refl
              H1 HQ HK)
    as (v & Hv & Hn).
  - replace (0 ^ 2)%R with 0%R by ring. apply Rabs_pos_lt.
    pose proof (factor_pos _ _ HQ HK) as Hf.
    pose proof (ln_ratio_neg _ _ H1) as Hl.
    apply Rlt_not_eq.
    rewrite <- (Rmult_0_r (IZR 4503599627370496 * powerRZ 2 (-1052)
                           / (PI * (IZR 4503599627370496 * powerRZ 2 948)))).
    apply Rmult_lt_compat_l; assumption.
  - rewrite (Theim_underflow ref_libm ref_libm_conforms) in Hv.
    injection Hv as <-. discriminate Hn.
Qed.

(** C2, amended.  When the radicand the code computes is negative and no
    Python-level operation raises, the call returns not-a-number and does
    not raise; and in a call on an array of radii, which then returns too,
    the entry of every radius whose radicand is negative is
    not-a-number. *)
Theorem C2_Theim_negative_radicand_is_nan
    (L : libm) (r r1 b1 Q K : num) :
  py_zero_divisor Q K = false ->
  py_zero_divisor r r1 = false ->
  py_square_overflows L b1 = false ->
  (radicand L (val r) (val r1) (val b1) (val Q) (val K) <? 0) = true ->
  Theim L r r1 b1 Q K = Ok (NpFloat nan)
  /\ forall (ra : list float) (i : nat),
       nth_error ra i = Some (val r) ->
       exists b : list float,
         Theim_array L ra r1 b1 Q K = Ok b /\ nth_error b i = Some nan.
Proof.
  intros HK Hr Hb Hneg. split.
  - rewrite Theim_cases, HK, Hr, Hb. now rewrite (sqrt_neg _ Hneg).
  - intros ra i Hi. rewrite Theim_array_cases, HK, Hb.
    eexists. split; [reflexivity |].
    rewrite nth_error_map, Hi. cbn [option_map].
    now rewrite (sqrt_neg _ Hneg).
Qed.

Lemma C2_witness :
  (radicand ref_libm 1 2 0.25 1 1 <? 0) = true
  /\ Theim ref_libm (NpFloat 1) (NpFloat 2) (NpFloat 0.25)
           (PyFloat 1) (PyFloat 1)
     = Ok (NpFloat nan)
  /\ exists b : list float,
       Theim_array ref_libm [0.5; 1; 4] (NpFloat 2) (NpFloat 0.25)
                   (PyFloat 1) (PyFloat 1) = Ok b
       /\ nth_error b 1 = Some nan.
Proof.
  split; [reflexivity |].
  destruct (C2_Theim_negative_radicand_is_nan ref_libm (NpFloat 1)
              (NpFloat 2) (NpFloat 0.25) (PyFloat 1) (PyFloat 1)
              eq_refl eq_refl eq_refl eq_refl) as [H1 H2].
  split; [exact H1 | exact (H2 [0.5; 1; 4] 1%nat eq_refl)].
Defined.







(** X2.  Theim raises exactly when a Python-level operation fails: a division
    of a Python float by a Python zero ([K], or [r1] under a Python [r])
    raises ZeroDivisionError, the overflow of the square of a Python [b1]
    raises OverflowError, and nothing else raises; with numpy values in
    these places the call always returns. *)
Theorem X2_Theim_raises_iff (L : libm) (r r1 b1 Q K : num) :
  (Theim L r r1 b1 Q K = Raise ZeroDivisionError
   <-> py_zero_divisor Q K = true \/ py_zero_divisor r r1 = true)
  /\ (Theim L r r1 b1 Q K = Raise OverflowError
      <-> py_zero_divisor Q K = false /\ py_zero_divisor r r1 = false
          /\ py_square_overflows L b1 = true)
  /\ (forall e : Py.exn,
        Theim L r r1 b1 Q K = Raise e ->
        e = ZeroDivisionError \/ e = OverflowError)
  /\ ((exists v : num, Theim L r r1 b1 Q K = Ok v)
      <-> py_zero_divisor Q K = false /\ py_zero_divisor r r1 = false
          /\ py_square_overflows L b1 = false).
Proof.
  rewrite Theim_cases.
  destruct (py_zero_divisor Q K), (py_zero_divisor r r1),
    (py_square_overflows L b1);
    repeat split; intros;
    repeat match goal with
           | H : _ \/ _ |- _ => destruct H
           | H : _ /\ _ |- _ => destruct H
           | H : exists _, _ |- _ => destruct H
           | H : Raise _ = Raise _ |- _ => injection H as <-
           end;
    try discriminate; eauto.
Qed.

(** ** The transform cell *)

Lemma f64_drawdown_series (x : float) (l : list float) :
  drawdown (Arr1 (x :: l)) = Ok (Arr1 (map (fun y => y - x) (x :: l))).
Proof. reflexivity. Qed.

Lemma f64_drawdown_first (x : float) (l : list float) :
  getitem (Arr1 (map (fun y => y - x) (x :: l))) 0
  = Ok (if is_finite x then 0 else nan).
Proof. cbn. f_equal. apply sub_self. Qed.

(** A transform that returns was applied to a non-empty 1-d series. *)
Lemma f64_drawdown_inv (h d : ndarray) :
  drawdown h = Ok d -> first_referenced h d.
Proof.
  unfold drawdown. destruct h as [x | [| x l]]; cbn; try discriminate.
  intros E. injection E as <-.
  exists x, l. split; [reflexivity |]. split; [reflexivity |].
  apply f64_drawdown_first.
Qed.

Lemma f64_example_load :
  load_drawdown Example.files = Ok Example.after_load.
Proof. reflexivity. Qed.

Lemma f64_example_load_nan :
  load_drawdown Example.files_nan = Ok Example.after_load_nan.
Proof. reflexivity. Qed.

Lemma f64_example_transform (v : release) :
  to_drawdown v Example.radii Example.after_load = Ok Example.after_transform.
Proof. destruct v; reflexivity. Qed.

(** C6, as stated, fails on data the loader reads.  The claim: the transform
    of every non-empty loaded series has first element zero.  A file whose
    first head reads nan loads, and the first element of the transformed
    series is nan - nan, not-a-number, which is not equal to zero. *)
Lemma C6_counterexample :
  ~ (forall (fs : filesystem) (g : loaded) (x : float) (l : list float),
        load_drawdown fs = Ok g ->
        h4d g = Arr1 (x :: l) ->
        exists d : ndarray,
          drawdown (h4d g) = Ok d /\ zero_referenced (h4d g) d).
Proof.
  intros H.
  destruct (H Example.files_nan Example.after_load_nan nan [9; 8]
              f64_example_load_nan eq_refl)
    as (d & Hd & x & l & Hh & Hx & y & Hy & Hz).
  cbn [h4d Example.after_load_nan] in Hh. injection Hh as <- <-.
  subst d. cbn in Hy. injection Hy as <-. discriminate Hz.
Qed.

(** C6, amended.  On every non-empty series the transform returns
    h - h[0] entry by entry; its first element is exactly zero when the
    first reading is finite, and not-a-number when the first reading is an
    infinity or not-a-number, both of which the loader reads.  When the
    transform cell returns, this holds of all four series (well and
    piezometers 1, 3, 4), on either release of numpy. *)
Theorem C6_drawdown_first_is_zero :
  (forall (x : float) (l : list float),
      drawdown (Arr1 (x :: l)) = Ok (Arr1 (map (fun y => y - x) (x :: l)))
      /\ getitem (Arr1 (map (fun y => y - x) (x :: l))) 0
         = Ok (if is_finite x then 0 else nan)
      /\ (is_finite x = true ->
          zero_referenced (Arr1 (x :: l))
                          (Arr1 (map (fun y => y - x) (x :: l)))))
  /\ (forall (v : release) (r : ndarray) (g : loaded) (d : transformed),
        to_drawdown v r g = Ok d ->
        first_referenced (wd g) (d_wd d)
        /\ first_referenced (h1d g) (d_h1d d)
        /\ first_referenced (h3d g) (d_h3d d)
        /\ first_referenced (h4d g) (d_h4d d)).
Proof.
  split.
  - intros x l. split; [apply f64_drawdown_series |].
    split; [apply f64_drawdown_first |].
    intros Hf. exists x, l. split; [reflexivity |]. split; [reflexivity |].
    exists 0. split; [| reflexivity].
    rewrite f64_drawdown_first, Hf. reflexivity.
  - intros v r g d H. unfold to_drawdown in H.
    bind_inv H a4 Ea4. bind_inv H a3 Ea3. bind_inv H a1 Ea1.
    bind_inv H aw Eaw. bind_inv H rows Erows. bind_inv H rd Erd.
    injection H as <-. cbn [d_wd d_h1d d_h3d d_h4d].
    split; [exact (f64_drawdown_inv _ _ Eaw) |].
    split; [exact (f64_drawdown_inv _ _ Ea1) |].
    split; [exact (f64_drawdown_inv _ _ Ea3) |].
    exact (f64_drawdown_inv _ _ Ea4).
Qed.

Lemma C6_witness :
  to_drawdown From_1_24 Example.radii Example.after_load
  = Ok Example.after_transform
  /\ first_referenced (Arr1 [40; 35; 33]) (Arr1 [0; -5; -7])
  /\ first_referenced (Arr1 [30; 28; 27]) (Arr1 [0; -2; -3])
  /\ first_referenced (Arr1 [20; 19; 18]) (Arr1 [0; -1; -2])
  /\ first_referenced (Arr1 [10; 9; 8]) (Arr1 [0; -1; -2]).
Proof.
  split; [reflexivity |].
  exact (proj2 C6_drawdown_first_is_zero From_1_24 Example.radii
           Example.after_load Example.after_transform
           (f64_example_transform From_1_24)).
Defined.

(** X9.  The transform is idempotent on a series whose first reading is
    finite: its result starts with zero, and subtracting zero changes no
    double.  Running the transform cell again then changes nothing. *)
Theorem X9_drawdown_idempotent (x : float) (l : list float) :
  is_finite x = true ->
  exists d : ndarray,
    drawdown (Arr1 (x :: l)) = Ok d /\ drawdown d = Ok d.
Proof.
  intros Hf. eexists. split; [apply f64_drawdown_series |].
  cbn [map]. rewrite sub_self, Hf.
  unfold drawdown. cbn [getitem item py_index length Py.bind].
  cbn. do 3 f_equal.
  rewrite map_map. apply map_ext. intros y. apply sub_zero.
Qed.

Lemma X9_witness :
  is_finite 10 = true
  /\ exists d : ndarray,
       drawdown (Arr1 [10; 9; 8]) = Ok d /\ drawdown d = Ok d.
Proof.
  split; [reflexivity | apply (X9_drawdown_idempotent 10 [9; 8])].
  reflexivity.
Defined.

Lemma f64_take_length (l : list float) (idx : list Z) (xs : list float) :
  take l idx = Ok xs -> length xs = length idx.
Proof.
  revert xs. induction idx as [| i idx IH]; intros xs H; cbn [take] in H.
  - injection H as <-. reflexivity.
  - bind_inv H x Ex. bind_inv H ys Eys. injection H as <-.
    cbn [length]. f_equal. apply IH. reflexivity.
Qed.

Lemma same_shape_eq (a b : ndarray) :
  same_shape a b = true -> shape b = shape a.
Proof.
  unfold same_shape. destruct (shape a) as [n |], (shape b) as [m |];
    intros H; try discriminate H; [| reflexivity].
  apply Nat.eqb_eq in H. now subst.
Qed.

(** X11.  When the transform cell returns, [ddn] holds exactly the four
    transformed series, in the order well, piezometer 1, 3, 4; [rad] is
    r[[0,1,3,4]] and has one radius per row of [ddn]; and from numpy 1.24
    on the four series have one length (before, the cell returns on series
    of different lengths too). *)
Theorem X11_ddn_rows_and_radii
    (v : release) (r : ndarray) (g : loaded) (d : transformed) :
  to_drawdown v r g = Ok d ->
  ddn d = [d_wd d; d_h1d d; d_h3d d; d_h4d d]
  /\ getitems r [0; 1; 3; 4]%Z = Ok (rad d)
  /\ length (rad d) = length (ddn d)
  /\ (v = From_1_24 ->
      shape (d_h1d d) = shape (d_wd d)
      /\ shape (d_h3d d) = shape (d_wd d)
      /\ shape (d_h4d d) = shape (d_wd d)).
Proof.
  intros H. unfold to_drawdown in H.
  bind_inv H a4 Ea4. bind_inv H a3 Ea3. bind_inv H a1 Ea1.
  bind_inv H aw Eaw. bind_inv H rows Erows. bind_inv H rd Erd.
  injection H as <-. cbn [ddn rad d_wd d_h1d d_h3d d_h4d].
  assert (Hrows : rows = [aw; a1; a3; a4]).
  { unfold np_array in Erows.
    destruct (forallb (same_shape aw) [a1; a3; a4]), v;
      try discriminate Erows; now injection Erows as <-. }
  subst rows. split; [reflexivity |]. split; [reflexivity |]. split.
  - destruct r as [x | l]; [discriminate Erd |].
    cbn [getitems] in Erd. now rewrite (f64_take_length _ _ _ Erd).
  - intros ->. unfold np_array in Erows.
    destruct (forallb (same_shape aw) [a1; a3; a4]) eqn:E;
      [| discriminate Erows].
    cbn [forallb] in E.
    apply andb_prop in E as [E1 E]. apply andb_prop in E as [E3 E].
    apply andb_prop in E as [E4 _].
    auto using same_shape_eq.
Qed.

Lemma X11_witness :
  ddn Example.after_transform
  = [Arr1 [0; -5; -7]; Arr1 [0; -2; -3]; Arr1 [0; -1; -2]; Arr1 [0; -1; -2]]
  /\ getitems Example.radii [0; 1; 3; 4]%Z = Ok [0.125; 5; 10; 20]
  /\ length (rad Example.after_transform)
     = length (ddn Example.after_transform)
  /\ (From_1_24 = From_1_24 ->
      shape (Arr1 [0; -2; -3]) = shape (Arr1 [0; -5; -7])
      /\ shape (Arr1 [0; -1; -2]) = shape (Arr1 [0; -5; -7])
      /\ shape (Arr1 [0; -1; -2]) = shape (Arr1 [0; -5; -7])).
Proof.
  exact (X11_ddn_rows_and_radii From_1_24 Example.radii Example.after_load
           Example.after_transform (f64_example_transform From_1_24)).
Defined.

(** The cell does return on four series of different lengths before numpy
    1.24, and raises from 1.24 on. *)
Lemma f64_ragged_transform :
  (exists d : transformed,
      to_drawdown Before_1_24 Example.radii
        (Loaded (Arr1 [0; 1]) (Arr1 [10; 9]) (Arr1 [20; 19; 18])
                (Arr1 [30; 28; 27]) (Arr1 [40; 35; 33])) = Ok d)
  /\ to_drawdown From_1_24 Example.radii
       (Loaded (Arr1 [0; 1]) (Arr1 [10; 9]) (Arr1 [20; 19; 18])
               (Arr1 [30; 28; 27]) (Arr1 [40; 35; 33]))
     = Raise ValueError.
Proof. split; [eexists |]; reflexivity. Qed.

End F64Facts.
